(** * Theme Check reporter: a shallow embedding of [scripts/run-theme-check.js]

    The script runs the theme-check engine once, splits the offenses it
    returns into errors and warnings, renders a Markdown report with links
    to the offending lines, publishes the report through a temporary file
    and the step-output file, and exits with a status that reflects the
    outcome.

    Modelling conventions.
    - A JavaScript string is a [string]: the sequence of the bytes of its
      UTF-8 encoding.  The script only concatenates strings, tests prefixes
      and suffixes, drops a prefix it has just tested for, replaces single
      characters and compares with literals; all of these agree on the
      UTF-16 code units and on the UTF-8 bytes of a well-formed string.
    - Line and column numbers are integers ([Z]); their decimal rendering
      is the one of template literals on integers.
    - Effects (the output file, the temporary report file, the engine call,
      the exit status) are threaded through an explicit state; what the
      environment decides (environment variables, the engine's answer, the
      clock, the file system) is read from a [World] record.
    - Console logging has no influence on any value the script computes
      and is left out. *)

From Stdlib Require Import ZArith NArith List String Ascii Bool Lia DecimalString
  DecimalZ.
From stdpp Require Import base list.
Import ListNotations.

Local Open Scope string_scope.

(** ** The JavaScript built-ins the script relies on *)

Module Js.

(** Truthiness of a string: every string but the empty one. *)
Definition truthy (s : string) : bool :=
  match s with
  | EmptyString => false
  | String _ _ => true
  end.

(** [v || d] for a possibly undefined string [v]. *)
Definition or_else (v : option string) (d : string) : string :=
  match v with
  | Some s => if truthy s then s else d
  | None => d
  end.

(** [v ?? d] for a possibly undefined number [v]. *)
Definition nullish (v : option Z) (d : Z) : Z :=
  match v with
  | Some z => z
  | None => d
  end.

(** [s.startsWith(p)]. *)
Definition startsWith (s p : string) : bool := String.prefix p s.

(** [s.substring(n)]: [s] without its first [n] characters. *)
Fixpoint substring_from (n : nat) (s : string) : string :=
  match n, s with
  | O, _ => s
  | S _, EmptyString => EmptyString
  | S n', String _ s' => substring_from n' s'
  end.

(** [s.endsWith(p)]. *)
Definition endsWith (s p : string) : bool :=
  (String.length p <=? String.length s)%nat
  && String.eqb (substring_from (String.length s - String.length p) s) p.

(** [s.replace(/c/g, r)] for a single character [c]. *)
Fixpoint replaceAll (c : ascii) (r : string) (s : string) : string :=
  match s with
  | EmptyString => EmptyString
  | String a s' =>
      (if Ascii.eqb a c then r else String a EmptyString) ++ replaceAll c r s'
  end.

(** Decimal rendering of an integer, as [String(n)] or [`${n}`]. *)
Definition number_toString (z : Z) : string :=
  NilZero.string_of_int (Z.to_int z).

(** [xs.join(sep)]. *)
Fixpoint join (sep : string) (xs : list string) : string :=
  match xs with
  | [] => ""
  | [x] => x
  | x :: rest => x ++ sep ++ join sep rest
  end.

(** *** [decodeURIComponent]

    First every [%XX] escape is read as one octet (a [%] that is not
    followed by two hexadecimal digits raises [URIError]); then every
    escaped octet of 0x80 and above must start a well-formed UTF-8
    sequence made of escaped octets only.  [None] stands for the raised
    [URIError]. *)

Inductive token : Type :=
| Lit (c : ascii)
| Esc (b : N).

Definition hex_digit (c : ascii) : option N :=
  let n := N_of_ascii c in
  if (48 <=? n)%N && (n <=? 57)%N then Some (n - 48)%N
  else if (65 <=? n)%N && (n <=? 70)%N then Some (n - 55)%N
  else if (97 <=? n)%N && (n <=? 102)%N then Some (n - 87)%N
  else None.

Fixpoint tokens (s : string) : option (list token) :=
  match s with
  | EmptyString => Some []
  | String "%" (String h (String l rest)) =>
      match hex_digit h, hex_digit l, tokens rest with
      | Some a, Some b, Some ts => Some (Esc (16 * a + b) :: ts)
      | _, _, _ => None
      end
  | String "%" _ => None
  | String c rest =>
      match tokens rest with
      | Some ts => Some (Lit c :: ts)
      | None => None
      end
  end.

Definition in_range (lo hi b : N) : bool := (lo <=? b)%N && (b <=? hi)%N.

Definition continuation (b : N) : bool := in_range 128 191 b.

(** The octets allowed right after the leading octet [b]. *)
Definition second_ok (b b2 : N) : bool :=
  if (b =? 224)%N then in_range 160 191 b2
  else if (b =? 237)%N then in_range 128 159 b2
  else if (b =? 240)%N then in_range 144 191 b2
  else if (b =? 244)%N then in_range 128 143 b2
  else continuation b2.

Definition octet (b : N) : ascii := ascii_of_N b.

Fixpoint utf8 (ts : list token) : option string :=
  match ts with
  | [] => Some ""
  | Lit c :: rest =>
      match utf8 rest with
      | Some s => Some (String c s)
      | None => None
      end
  | Esc b :: rest =>
      if (b <? 128)%N then
        match utf8 rest with
        | Some s => Some (String (octet b) s)
        | None => None
        end
      else if in_range 194 223 b then
        match rest with
        | Esc b2 :: rest' =>
            if continuation b2 then
              match utf8 rest' with
              | Some s => Some (String (octet b) (String (octet b2) s))
              | None => None
              end
            else None
        | _ => None
        end
      else if in_range 224 239 b then
        match rest with
        | Esc b2 :: Esc b3 :: rest' =>
            if second_ok b b2 && continuation b3 then
              match utf8 rest' with
              | Some s =>
                  Some (String (octet b) (String (octet b2)
                          (String (octet b3) s)))
              | None => None
              end
            else None
        | _ => None
        end
      else if in_range 240 244 b then
        match rest with
        | Esc b2 :: Esc b3 :: Esc b4 :: rest' =>
            if second_ok b b2 && continuation b3 && continuation b4 then
              match utf8 rest' with
              | Some s =>
                  Some (String (octet b) (String (octet b2)
                          (String (octet b3) (String (octet b4) s))))
              | None => None
              end
            else None
        | _ => None
        end
      else None
  end.

Definition decodeURIComponent (s : string) : option string :=
  match tokens s with
  | Some ts => utf8 ts
  | None => None
  end.

End Js.

(** ** [node:path], POSIX flavour *)

Module NodePath.

Definition sep : ascii := "/"%char.

(** The segments of a path between separators. *)
Fixpoint segments_aux (cur : string) (s : string) : list string :=
  match s with
  | EmptyString => [cur]
  | String c s' =>
      if Ascii.eqb c sep then cur :: segments_aux "" s'
      else segments_aux (cur ++ String c EmptyString) s'
  end.

Definition segments (s : string) : list string := segments_aux "" s.

(** [normalizeString]: empty and [.] segments vanish, [..] removes the
    segment before it, or stays when there is none to remove and the
    path is relative.  The accumulator holds the kept segments, last
    one first. *)
Fixpoint normalize_segments (allowAboveRoot : bool) (acc : list string)
    (segs : list string) : list string :=
  match segs with
  | [] => rev acc
  | seg :: rest =>
      if String.eqb seg "" || String.eqb seg "." then
        normalize_segments allowAboveRoot acc rest
      else if String.eqb seg ".." then
        match acc with
        | top :: acc' =>
            if String.eqb top ".." then
              normalize_segments allowAboveRoot
                (if allowAboveRoot then ".." :: acc else acc) rest
            else normalize_segments allowAboveRoot acc' rest
        | [] =>
            normalize_segments allowAboveRoot
              (if allowAboveRoot then [".."] else []) rest
        end
      else normalize_segments allowAboveRoot (seg :: acc) rest
  end.

Definition normalizeString (p : string) (allowAboveRoot : bool) : string :=
  Js.join "/" (normalize_segments allowAboveRoot [] (segments p)).

(** [path.normalize(p)]. *)
Definition normalize (p : string) : string :=
  match p with
  | EmptyString => "."
  | String c _ =>
      let isAbsolute := Ascii.eqb c sep in
      let trailingSeparator := Js.endsWith p "/" in
      let q := normalizeString p (negb isAbsolute) in
      match q with
      | EmptyString =>
          if isAbsolute then "/"
          else if trailingSeparator then "./" else "."
      | String _ _ =>
          let q' := if trailingSeparator then q ++ "/" else q in
          if isAbsolute then "/" ++ q' else q'
      end
  end.

(** [path.join(a, b)]. *)
Definition join (a b : string) : string :=
  match Js.truthy a, Js.truthy b with
  | false, false => "."
  | true, false => normalize a
  | false, true => normalize b
  | true, true => normalize (a ++ "/" ++ b)
  end.

(** [path.dirname(p)].  [scan] walks the characters at index 1 and above
    from the last one down; it returns how many characters lie after the
    separator that ends the directory part. *)
Fixpoint scan (matchedSlash : bool) (seen : nat) (rev_tail : list ascii)
    : option nat :=
  match rev_tail with
  | [] => None
  | c :: more =>
      if Ascii.eqb c sep then
        if matchedSlash then scan true (S seen) more
        else Some (S seen)
      else scan false (S seen) more
  end.

Fixpoint take (n : nat) (s : string) : string :=
  match n, s with
  | O, _ => ""
  | S _, EmptyString => ""
  | S n', String c s' => String c (take n' s')
  end.

Definition dirname (p : string) : string :=
  match p with
  | EmptyString => "."
  | String c tail =>
      let hasRoot := Ascii.eqb c sep in
      match scan true 0 (rev (list_ascii_of_string tail)) with
      | None => if hasRoot then "/" else "."
      | Some after =>
          let stop := (String.length p - after)%nat in
          if hasRoot && (stop =? 1)%nat then "//" else take stop p
      end
  end.

End NodePath.

(** ** Characters and marks used by the report *)

Definition LF : string := String (ascii_of_nat 10) EmptyString.
Definition CR : string := String (ascii_of_nat 13) EmptyString.

Definition check_mark : string := "✅".
Definition siren : string := "🚨".
Definition warning_sign : string := "⚠️".

(** ** Data model *)

(** [offense.start]: both coordinates may be missing. *)
Record Position : Type := mkPosition {
  line : option Z;
  character : option Z
}.

(** One finding of the engine; every field but [severity] may be absent. *)
Record Offense : Type := mkOffense {
  uri : option string;
  start : option Position;
  severity : Z;
  message : option string;
  check : option string
}.

(** ** Path and link resolution, then the Markdown block of one offense *)

(** What [formatOffenseBlock] holds in [relativePath] and [fileLink] once
    its [if (offenseUri.startsWith('file://'))] statement is over. *)
Record Resolved : Type := mkResolved {
  relativePath : string;
  fileLink : string
}.

Definition baseWorkspacePath (workspacePath : string) : string :=
  if Js.endsWith workspacePath "/" then workspacePath
  else workspacePath ++ "/".

Definition linkPath (relativePath : string) : string :=
  if Js.startsWith relativePath "/" then Js.substring_from 1 relativePath
  else relativePath.

Definition resolve (offenseUri : string) (startRow : Z)
    (workspacePath repoUrl commitSha : string) : Resolved :=
  let base := baseWorkspacePath workspacePath in
  if Js.startsWith offenseUri "file://" then
    match Js.decodeURIComponent (Js.substring_from 7 offenseUri) with
    | Some decodedPath =>
        if Js.startsWith decodedPath base then
          let rel := Js.substring_from (String.length base) decodedPath in
          if Js.truthy repoUrl && Js.truthy commitSha
             && negb (String.eqb rel "unknown_path") && (0 <? startRow)%Z
          then
            mkResolved rel
              (repoUrl ++ "/blob/" ++ commitSha ++ "/" ++ linkPath rel
                 ++ "#L" ++ Js.number_toString startRow)
          else mkResolved rel ""
        else mkResolved decodedPath ""
    | None => mkResolved offenseUri ""
    end
  else mkResolved offenseUri "".

Definition offenseUri (o : Offense) : string :=
  Js.or_else (uri o) "file:///unknown_path".

(** [offense.start?.line ?? 0] and [offense.start?.character ?? 0]. *)
Definition startRow (o : Offense) : Z :=
  Js.nullish (match start o with Some p => line p | None => None end) 0.

Definition startCol (o : Offense) : Z :=
  Js.nullish (match start o with Some p => character p | None => None end) 0.

Definition pathLink (r : Resolved) : string :=
  if Js.truthy (fileLink r)
  then "[" ++ relativePath r ++ "](" ++ fileLink r ++ ")"
  else relativePath r.

Definition locationSuffix (o : Offense) : string :=
  ":`" ++ Js.number_toString (startRow o) ++ ":"
    ++ Js.number_toString (startCol o) ++ "`".

Definition description (o : Offense) : string :=
  Js.or_else (message o) "No message" ++ " ("
    ++ Js.or_else (check o) "No check code" ++ ")".

Definition formatOffenseBlock (o : Offense)
    (workspacePath repoUrl commitSha : string) : string :=
  let r := resolve (offenseUri o) (startRow o) workspacePath repoUrl commitSha in
  "- " ++ pathLink r ++ locationSuffix o ++ LF ++ "  " ++ description o.

(** ** Classification and report body *)

Definition errorOffenses (allOffenses : list Offense) : list Offense :=
  List.filter (fun offense => (severity offense =? 0)%Z) allOffenses.

Definition warningOffenses (allOffenses : list Offense) : list Offense :=
  List.filter (fun offense => (severity offense =? 1)%Z) allOffenses.

Definition count_toString (n : nat) : string :=
  Js.number_toString (Z.of_nat n).

Definition summaryOf (errors warnings : nat) : string :=
  count_toString errors ++ " error(s), " ++ count_toString warnings
    ++ " warning(s) found.".

Definition formatAll (offenses : list Offense)
    (workspacePath repoUrl commitSha : string) : string :=
  Js.join LF
    (List.map (fun offense =>
                 formatOffenseBlock offense workspacePath repoUrl commitSha)
       offenses).

Definition reportBodyOf (allOffenses : list Offense)
    (workspacePath repoUrl commitSha : string) : string :=
  let errors := errorOffenses allOffenses in
  let warnings := warningOffenses allOffenses in
  let totalErrorCount := List.length errors in
  let totalWarningCount := List.length warnings in
  if (totalErrorCount =? 0)%nat && (totalWarningCount =? 0)%nat then
    check_mark ++ " (" ++ summaryOf totalErrorCount totalWarningCount ++ ")"
  else
    let formattedErrors :=
      if (0 <? totalErrorCount)%nat
      then formatAll errors workspacePath repoUrl commitSha else "" in
    let formattedWarnings :=
      if (0 <? totalWarningCount)%nat
      then formatAll warnings workspacePath repoUrl commitSha else "" in
    let body1 :=
      if Js.truthy formattedErrors
      then "### " ++ siren ++ " Errors" ++ LF ++ formattedErrors ++ LF
      else "" in
    if Js.truthy formattedWarnings then
      (if Js.truthy formattedErrors then body1 ++ LF ++ "---" ++ LF else body1)
        ++ "### " ++ warning_sign ++ " Warnings" ++ LF ++ formattedWarnings
    else body1.

(** ** The world the script runs in *)

(** The two values that have no properties. *)
Inductive Nullish : Type :=
| Null
| Undefined.

Definition nullish_string (v : Nullish) : string :=
  match v with
  | Null => "null"
  | Undefined => "undefined"
  end.

(** A thrown value: an object (an [Error], say) with its [message]
    property and its rendering as a string, or [null] or [undefined],
    which a promise may be rejected with as well. *)
Inductive Thrown : Type :=
| mkThrown (message : option string) (rendering : string)
| ThrownNullish (v : Nullish).

Definition thrown_message (e : Thrown) : option string :=
  match e with
  | mkThrown message _ => message
  | ThrownNullish _ => None
  end.

Definition thrown_string (e : Thrown) : string :=
  match e with
  | mkThrown _ rendering => rendering
  | ThrownNullish v => nullish_string v
  end.

(** [new Error(msg)]. *)
Definition Error (msg : string) : Thrown :=
  mkThrown (Some msg) ("Error: " ++ msg).

(** The [TypeError] of a property read on [null] or [undefined]. *)
Definition TypeError (msg : string) : Thrown :=
  mkThrown (Some msg) ("TypeError: " ++ msg).

(** What the engine resolves to: an object whose [offenses] is an array,
    or anything else. *)
Inductive Results : Type :=
| WithOffenses (offenses : list Offense)
| Malformed.

Inductive EngineOutcome : Type :=
| Resolves (results : Results)
| Rejects (error : Thrown).

(** The outcome of requiring [@shopify/theme-check-node] and reading its
    [themeCheckRun] property. *)
Inductive Imported : Type :=
| RequireThrows
| NotAFunction (typeof : string)
| EngineFunction (run : string -> EngineOutcome).

Record World : Type := mkWorld {
  env : string -> option string;       (* process.env *)
  cwd : string;                        (* process.cwd() *)
  script_dir : string;                 (* __dirname *)
  imported : Imported;
  now : Z;                             (* Date.now() *)
  existsSync : string -> bool;         (* fs.existsSync *)
  write_permitted : string -> bool;    (* writeFileSync meets no I/O error *)
  append_permitted : nat -> bool       (* the n-th appendFileSync meets none *)
}.

Section Run.

Variable w : World.

(** *** Environment variables, read once at load time *)

Definition themePath : string := cwd w.
Definition prNumber : string := Js.or_else (env w "PR_NUMBER") "N/A".
Definition workspacePath : string :=
  Js.or_else (env w "WORKSPACE_PATH") themePath.
Definition outputFilePath : option string := env w "GITHUB_OUTPUT".
Definition repoUrl : string := Js.or_else (env w "REPO_URL") "".
Definition commitSha : string := Js.or_else (env w "COMMIT_SHA") "".
Definition runId : string := Js.or_else (env w "RUN_ID") "".
Definition failOnWarnings : bool :=
  match env w "FAIL_ON_WARNINGS" with
  | Some v => String.eqb v "true"
  | None => false
  end.

(** *** State: the mutable locals of [runCheck] and the effects so far *)

Record Vars : Type := mkVars {
  totalErrorCount : nat;
  totalWarningCount : nat;
  summaryLine : string;
  reportBody : string;
  jobShouldFail : bool
}.

Record State : Type := mkState {
  vars : Vars;
  output_lines : list string;          (* appended to the output file *)
  written : list (string * string);    (* files written, with their content *)
  engine_calls : nat;                  (* invocations of themeCheckRun *)
  append_attempts : nat;               (* calls of appendFileSync *)
  setOutput_calls : list (string * string)
}.

Definition initial_vars : Vars :=
  mkVars 0 0 "Error: Processing failed." "" false.

Definition initial_state : State := mkState initial_vars [] [] 0 0 [].

Definition with_vars (f : Vars -> Vars) (st : State) : State :=
  mkState (f (vars st)) (output_lines st) (written st) (engine_calls st)
    (append_attempts st) (setOutput_calls st).

(** *** A state monad with exceptions *)

Inductive result (A : Type) : Type :=
| Returned (a : A)
| Raised (e : Thrown).
Arguments Returned {A} a.
Arguments Raised {A} e.

Definition M (A : Type) : Type := State -> result A * State.

Definition ret {A} (a : A) : M A := fun st => (Returned a, st).

Definition bind {A B} (m : M A) (k : A -> M B) : M B :=
  fun st =>
    match m st with
    | (Returned a, st') => k a st'
    | (Raised e, st') => (Raised e, st')
    end.

Definition throw {A} (e : Thrown) : M A := fun st => (Raised e, st).

Definition try_catch {A} (body : M A) (handler : Thrown -> M A) : M A :=
  fun st =>
    match body st with
    | (Returned a, st') => (Returned a, st')
    | (Raised e, st') => handler e st'
    end.

Definition modify (f : State -> State) : M unit :=
  fun st => (Returned tt, f st).

Definition assign (f : Vars -> Vars) : M unit := modify (with_vars f).

Notation "x <- m ;; k" := (bind m (fun x => k))
  (at level 100, m at next level, right associativity).
Notation "m ;;; k" := (bind m (fun _ => k))
  (at level 100, right associativity).

(** *** File system *)

(** [fs.appendFileSync(p, data)]: fails when the directory of [p] is
    missing or on an I/O error, and then appends nothing. *)
Definition appendFileSync (p data : string) : M unit :=
  fun st =>
    let st' :=
      mkState (vars st) (output_lines st) (written st) (engine_calls st)
        (S (append_attempts st)) (setOutput_calls st) in
    if existsSync w (NodePath.dirname p)
       && append_permitted w (append_attempts st)
    then
      (Returned tt,
       mkState (vars st') (output_lines st' ++ [data])%list (written st')
         (engine_calls st') (append_attempts st') (setOutput_calls st'))
    else (Raised (Error ("cannot append to " ++ p)), st').

(** [fs.writeFileSync(p, body)]. *)
Definition writeFileSync (p body : string) : M unit :=
  fun st =>
    if existsSync w (NodePath.dirname p) && write_permitted w p then
      (Returned tt,
       mkState (vars st) (output_lines st) ((p, body) :: written st)
         (engine_calls st) (append_attempts st) (setOutput_calls st))
    else (Raised (Error ("cannot write " ++ p)), st).

(** *** [setOutput] *)

Definition escapeValue (value : string) : string :=
  Js.replaceAll (ascii_of_nat 13) "%0D"
    (Js.replaceAll (ascii_of_nat 10) "%0A"
       (Js.replaceAll "%" "%25" value)).

Definition setOutput (name value : string) : M unit :=
  modify (fun st =>
    mkState (vars st) (output_lines st) (written st) (engine_calls st)
      (append_attempts st) (setOutput_calls st ++ [(name, value)])%list) ;;;
  let escapedValue := escapeValue value in
  try_catch
    (match outputFilePath with
     | Some p =>
         if Js.truthy p
         then appendFileSync p (name ++ "=" ++ escapedValue ++ LF)
         else ret tt
     | None => ret tt
     end)
    (fun _ => ret tt).

(** *** [writeCommentBodyToFile] *)

Definition bodyFile : string :=
  let tempDir := Js.or_else (env w "RUNNER_TEMP") (script_dir w) in
  NodePath.join tempDir
    ("comment-body-" ++ Js.number_toString (now w) ++ ".md").

Definition writeCommentBodyToFile (body : string) : M unit :=
  writeFileSync bodyFile body ;;;
  setOutput "comment_body_file" bodyFile ;;;
  setOutput "fallback_comment_body" "".

(** *** [runCheck] *)

Definition reportTitle : string :=
  "## Theme Check Report for PR #" ++ prNumber.

Definition actionRunUrl : string :=
  if Js.truthy repoUrl && Js.truthy runId
  then repoUrl ++ "/actions/runs/" ++ runId else "".

Definition viewMoreLink : string :=
  if Js.truthy actionRunUrl
  then LF ++ LF ++ "[View Full Action Run Details](" ++ actionRunUrl ++ ")"
  else "".

(** [await themeCheckRun(themePath)]. *)
Definition call_engine (run : string -> EngineOutcome) : M Results :=
  modify (fun st =>
    mkState (vars st) (output_lines st) (written st) (S (engine_calls st))
      (append_attempts st) (setOutput_calls st)) ;;;
  match run themePath with
  | Resolves results => ret results
  | Rejects error => throw error
  end.

Definition output_path_valid : bool :=
  match outputFilePath with
  | Some p => Js.truthy p && existsSync w (NodePath.dirname p)
  | None => false
  end.

Definition outputFilePath_toString : string :=
  match outputFilePath with
  | Some p => p
  | None => "undefined"
  end.

(** The body of the first [try] block. *)
Definition check_and_classify : M unit :=
  (if negb output_path_valid then
     throw (Error ("GITHUB_OUTPUT path invalid or directory does not exist: "
                     ++ outputFilePath_toString))
   else ret tt) ;;;
  run <-
    match imported w with
    | EngineFunction run => ret run
    | NotAFunction typeof =>
        throw (Error ("Failed to access themeCheckRun function correctly "
                        ++ "from '@shopify/theme-check-node'. "
                        ++ "Expected function, got: " ++ typeof))
    | RequireThrows =>
        throw (Error ("Failed to access themeCheckRun function correctly "
                        ++ "from '@shopify/theme-check-node'. "
                        ++ "Expected function, got: undefined"))
    end ;;
  results <- call_engine run ;;
  allOffenses <-
    match results with
    | WithOffenses offenses => ret offenses
    | Malformed =>
        throw (Error ("Theme check did not return the expected "
                        ++ "offenses array structure."))
    end ;;
  let errors := errorOffenses allOffenses in
  let warnings := warningOffenses allOffenses in
  assign (fun v =>
    mkVars (List.length errors) (List.length warnings)
      (summaryLine v) (reportBody v) (jobShouldFail v)) ;;;
  assign (fun v =>
    mkVars (totalErrorCount v) (totalWarningCount v)
      (summaryOf (totalErrorCount v) (totalWarningCount v))
      (reportBody v) (jobShouldFail v)) ;;;
  assign (fun v =>
    mkVars (totalErrorCount v) (totalWarningCount v) (summaryLine v)
      (reportBodyOf allOffenses workspacePath repoUrl commitSha)
      (jobShouldFail v)) ;;;
  assign (fun v =>
    mkVars (totalErrorCount v) (totalWarningCount v) (summaryLine v)
      (reportBody v)
      (if (0 <? totalErrorCount v)%nat then true
       else if (0 <? totalWarningCount v)%nat && failOnWarnings then true
       else jobShouldFail v)).

(** [error.message || error], spliced into a template literal, for an
    [error] that is an object. *)
Definition error_text (error : Thrown) : string :=
  Js.or_else (thrown_message error) (thrown_string error).

(** [error.message]: reading a property of [null] or [undefined] raises a
    [TypeError]. *)
Definition get_message (error : Thrown) : M (option string) :=
  match error with
  | mkThrown message _ => ret message
  | ThrownNullish v =>
      throw (TypeError ("Cannot read properties of " ++ nullish_string v
                          ++ " (reading 'message')"))
  end.

(** The handler of the first [try] statement: the summary is assigned,
    then the body, whose template reads [error.message], then the
    verdict. *)
Definition script_failed (error : Thrown) : M unit :=
  assign (fun v =>
    mkVars (totalErrorCount v) (totalWarningCount v)
      "Error: Failed to run theme check script." (reportBody v)
      (jobShouldFail v)) ;;;
  message <- get_message error ;;
  assign (fun v =>
    mkVars (totalErrorCount v) (totalWarningCount v) (summaryLine v)
      (warning_sign ++ " **Theme Check Script Failed**" ++ LF ++ "```" ++ LF
         ++ Js.or_else message (thrown_string error) ++ LF ++ "```")
      (jobShouldFail v)) ;;;
  assign (fun v =>
    mkVars (totalErrorCount v) (totalWarningCount v) (summaryLine v)
      (reportBody v) true).

Definition finalCommentBody (v : Vars) : string :=
  reportTitle ++ LF ++ "**" ++ summaryLine v ++ "**" ++ LF ++ LF
    ++ reportBody v ++ viewMoreLink.

Definition fallbackBody (v : Vars) : string :=
  reportTitle ++ LF ++ "**" ++ summaryLine v ++ "**" ++ LF ++ LF
    ++ warning_sign ++ " Error: Could not write report file."
    ++ viewMoreLink.

(** The second [try] block with its handler. *)
Definition publish : M unit :=
  try_catch
    (fun st =>
       (writeCommentBodyToFile (finalCommentBody (vars st)) ;;;
        setOutput "error_count" (count_toString (totalErrorCount (vars st))) ;;;
        setOutput "warning_count"
          (count_toString (totalWarningCount (vars st)))) st)
    (fun _ st =>
       (setOutput "comment_body_file" "" ;;;
        setOutput "fallback_comment_body" (fallbackBody (vars st)) ;;;
        assign (fun v =>
          mkVars (totalErrorCount v) (totalWarningCount v) (summaryLine v)
            (reportBody v) true)) st).

(** [runCheck()] up to its [process.exit]: the exit status. *)
Definition runCheck : M Z :=
  try_catch check_and_classify script_failed ;;;
  publish ;;;
  fun st => (Returned (if jobShouldFail (vars st) then 1 else 0)%Z, st).

(** What an observer of the process sees when it is over. *)
Record Outcome : Type := mkOutcome {
  exit_code : Z;
  final : State
}.

(** The whole script: the module import, then [runCheck()].  When
    [runCheck] itself raises, its promise is rejected with nobody to handle
    it, and the process ends with status 1. *)
Definition main : Outcome :=
  match imported w with
  | RequireThrows => mkOutcome 1 initial_state
  | _ =>
      match runCheck initial_state with
      | (Returned code, st) => mkOutcome code st
      | (Raised _, st) => mkOutcome 1 st
      end
  end.

End Run.

Arguments Returned {A} a.
Arguments Raised {A} e.

(** ** Vocabulary used by the statements below *)

(** The line [setOutput] appends for one call. *)
Definition render (call : string * string) : string :=
  fst call ++ "=" ++ escapeValue (snd call) ++ LF.

(** Whether [fs.writeFileSync] accepts the report file. *)
Definition write_succeeds (w : World) : bool :=
  existsSync w (NodePath.dirname (bodyFile w)) && write_permitted w (bodyFile w).

(** Whether the module import lets the script reach [runCheck()]. *)
Definition reaches_runCheck (w : World) : bool :=
  match imported w with
  | RequireThrows => false
  | _ => true
  end.

(** What the engine answers, when the script gets as far as calling it. *)
Definition engine_outcome (w : World) : option EngineOutcome :=
  if output_path_valid w then
    match imported w with
    | EngineFunction run => Some (run (themePath w))
    | _ => None
    end
  else None.

Definition engine_offenses (w : World) : option (list Offense) :=
  match engine_outcome w with
  | Some (Resolves (WithOffenses l)) => Some l
  | _ => None
  end.

(** The failing conditions of the exit status. *)
Definition errors_found (w : World) : Prop :=
  exists l, engine_offenses w = Some l /\ (0 < List.length (errorOffenses l))%nat.

Definition warnings_found_with_flag (w : World) : Prop :=
  exists l, engine_offenses w = Some l
            /\ (0 < List.length (warningOffenses l))%nat
            /\ env w "FAIL_ON_WARNINGS" = Some "true".

Definition fatal_error (w : World) : Prop :=
  imported w = RequireThrows
  \/ output_path_valid w = false
  \/ (exists typeof, imported w = NotAFunction typeof)
  \/ (exists run, imported w = EngineFunction run
                  /\ (run (themePath w) = Resolves Malformed
                      \/ exists e, run (themePath w) = Rejects e)).

Definition write_failure (w : World) : Prop :=
  reaches_runCheck w = true /\ write_succeeds w = false.

Definition failing_condition (w : World) : Prop :=
  errors_found w \/ warnings_found_with_flag w \/ fatal_error w
  \/ write_failure w.

(** The offenses that are neither errors nor warnings. *)
Definition ignoredOffenses (allOffenses : list Offense) : list Offense :=
  List.filter
    (fun offense =>
       negb (severity offense =? 0)%Z && negb (severity offense =? 1)%Z)
    allOffenses.

(** The world [w] with [FAIL_ON_WARNINGS] set to [v], or unset. *)
Definition with_fail_on_warnings (v : option string) (w : World) : World :=
  mkWorld
    (fun k => if String.eqb k "FAIL_ON_WARNINGS" then v else env w k)
    (cwd w) (script_dir w) (imported w) (now w) (existsSync w)
    (write_permitted w) (append_permitted w).

(** The spec's wording of the normalised root: the root brought to end
    with exactly one separator, whatever number of them it ends with. *)
Fixpoint only_separators (s : string) : bool :=
  match s with
  | EmptyString => true
  | String c s' => Ascii.eqb c "/" && only_separators s'
  end.

Fixpoint root_with_one_separator (root : string) : string :=
  match root with
  | EmptyString => "/"
  | String c rest =>
      if only_separators root then "/"
      else String c (root_with_one_separator rest)
  end.

(** The spec's wording of the path put in a link: the relative path
    without any of its leading separators. *)
Fixpoint strip_leading_separators (s : string) : string :=
  match s with
  | EmptyString => ""
  | String c rest =>
      if Ascii.eqb c "/" then strip_leading_separators rest else s
  end.

(** The link in the spec's wording: whenever a link is produced, it is
    the repository URL, [/blob/], the commit, [/], the relative path with
    any leading separator stripped, [#L] and the starting line. *)
Definition link_strips_any_leading_separator : Prop :=
  forall (o : Offense) (ws repo sha : string),
    Js.truthy (fileLink (resolve (offenseUri o) (startRow o) ws repo sha))
    = true ->
    fileLink (resolve (offenseUri o) (startRow o) ws repo sha)
    = repo ++ "/blob/" ++ sha ++ "/"
        ++ strip_leading_separators
             (relativePath (resolve (offenseUri o) (startRow o) ws repo sha))
        ++ "#L" ++ Js.number_toString (startRow o).

(** The round trip in the spec's wording: a decoded path strictly inside
    the workspace is the root, brought to exactly one trailing separator,
    followed by the relative path the script computed. *)
Definition rejoins_with_one_separator : Prop :=
  forall (u : string) (row : Z) (ws repo sha d : string),
    Js.startsWith u "file://" = true ->
    Js.decodeURIComponent (Js.substring_from 7 u) = Some d ->
    Js.startsWith d (root_with_one_separator ws) = true ->
    d <> root_with_one_separator ws ->
    root_with_one_separator ws ++ relativePath (resolve u row ws repo sha) = d.

(** The inputs the comment step of [action.yml] is handed: the value a step
    output has after the run, read off the lines of the output file.  The
    last line that sets the output wins; a line ends with a line feed that
    is not part of the value. *)
Fixpoint chomp (s : string) : string :=
  match s with
  | EmptyString => ""
  | String c rest =>
      match rest with
      | EmptyString => if Ascii.eqb c (ascii_of_nat 10) then "" else s
      | String _ _ => String c (chomp rest)
      end
  end.

Fixpoint step_output (name : string) (lines : list string) : option string :=
  match lines with
  | [] => None
  | l :: rest =>
      match step_output name rest with
      | Some v => Some v
      | None =>
          if Js.startsWith l (name ++ "=")
          then Some (chomp (Js.substring_from (String.length (name ++ "=")) l))
          else None
      end
  end.

(** The comment step posts the file named by its [path] input, or else its
    [message] input; handed neither, it has nothing to post. *)
Definition report_posted (st : State) : bool :=
  Js.truthy (Js.or_else (step_output "comment_body_file" (output_lines st)) "")
  || Js.truthy
       (Js.or_else (step_output "fallback_comment_body" (output_lines st)) "").

(** Whether the engine is called and rejects with [null] or [undefined]. *)
Definition rejects_nullish (w : World) : bool :=
  match engine_outcome w with
  | Some (Rejects (ThrownNullish _)) => true
  | _ => false
  end.

(** Whether the run gets as far as writing the report file: the module was
    imported and the handler of the first [try] statement did not raise. *)
Definition write_attempted (w : World) : bool :=
  reaches_runCheck w && negb (rejects_nullish w).

(** The state [runCheck] is left in when that handler raises: the engine
    was called, the summary is assigned, nothing else happened. *)
Definition crashed_state : State :=
  mkState
    (mkVars 0 0 "Error: Failed to run theme check script." "" false)
    [] [] 1 0 [].

(** *** The steps of a run in closed form *)

(** Whether [setOutput] gets as far as calling [appendFileSync]. *)
Definition attempts_append (w : World) : bool :=
  match outputFilePath w with
  | Some p => Js.truthy p
  | None => false
  end.

(** The state one call of [setOutput] leaves behind. *)
Definition after_setOutput (w : World) (name value : string) (st : State)
    : State :=
  mkState (vars st)
    (output_lines st
       ++ (if output_path_valid w && append_permitted w (append_attempts st)
           then [render (name, value)] else []))%list
    (written st) (engine_calls st)
    (if attempts_append w then S (append_attempts st) else append_attempts st)
    (setOutput_calls st ++ [(name, value)])%list.

(** The state the first [try] statement of [runCheck] leaves behind. *)
Definition after_check (w : World) : State :=
  snd (try_catch (check_and_classify w) script_failed initial_state).

(** The body the script reports when the first [try] block raised [e]. *)
Definition script_failed_body (e : Thrown) : string :=
  warning_sign ++ " **Theme Check Script Failed**" ++ LF ++ "```" ++ LF
    ++ error_text e ++ LF ++ "```".

(** The error the first [try] block raises, when it raises one. *)
Definition setup_error (w : World) : Thrown :=
  if negb (output_path_valid w) then
    Error ("GITHUB_OUTPUT path invalid or directory does not exist: "
             ++ outputFilePath_toString w)
  else
    match imported w with
    | RequireThrows =>
        Error ("Failed to access themeCheckRun function correctly "
                 ++ "from '@shopify/theme-check-node'. "
                 ++ "Expected function, got: undefined")
    | NotAFunction typeof =>
        Error ("Failed to access themeCheckRun function correctly "
                 ++ "from '@shopify/theme-check-node'. "
                 ++ "Expected function, got: " ++ typeof)
    | EngineFunction run =>
        match run (themePath w) with
        | Rejects e => e
        | Resolves _ =>
            Error ("Theme check did not return the expected "
                     ++ "offenses array structure.")
        end
    end.

(** The state the second [try] statement leaves behind, from [st]. *)
Definition after_publish (w : World) (st : State) : State :=
  if write_succeeds w then
    after_setOutput w "warning_count"
      (count_toString (totalWarningCount (vars st)))
      (after_setOutput w "error_count"
         (count_toString (totalErrorCount (vars st)))
         (after_setOutput w "fallback_comment_body" ""
            (after_setOutput w "comment_body_file" (bodyFile w)
               (mkState (vars st) (output_lines st)
                  ((bodyFile w, finalCommentBody w (vars st)) :: written st)
                  (engine_calls st) (append_attempts st)
                  (setOutput_calls st)))))
  else
    with_vars
      (fun v =>
         mkVars (totalErrorCount v) (totalWarningCount v) (summaryLine v)
           (reportBody v) true)
      (after_setOutput w "fallback_comment_body" (fallbackBody w (vars st))
         (after_setOutput w "comment_body_file" "" st)).

(** ** Sample inputs *)

Module Samples.

Definition env_of (l : list (string * string)) (k : string) : option string :=
  match List.find (fun kv => String.eqb (fst kv) k) l with
  | Some kv => Some (snd kv)
  | None => None
  end.

Definition header_error : Offense :=
  mkOffense (Some "file:///workspace/sections/header.liquid")
    (Some (mkPosition (Some 12%Z) (Some 4%Z))) 0
    (Some "Unknown tag") (Some "LiquidHTMLSyntaxError").

Definition footer_warning : Offense :=
  mkOffense (Some "file:///workspace/sections/footer.liquid")
    (Some (mkPosition (Some 3%Z) (Some 0%Z))) 1
    (Some "Unused variable") (Some "UnusedAssign").

Definition no_start : Offense :=
  mkOffense (Some "file:///workspace/layout/theme.liquid") None 0
    (Some "Missing asset") (Some "MissingAsset").

Definition outside : Offense :=
  mkOffense (Some "file:///elsewhere/snippets/a%20b.liquid")
    (Some (mkPosition (Some 8%Z) (Some 2%Z))) 1 None None.

Definition info : Offense :=
  mkOffense (Some "file:///workspace/assets/app.js")
    (Some (mkPosition (Some 1%Z) (Some 1%Z))) 2 (Some "Note") None.

Definition full_env : string -> option string :=
  env_of [("PR_NUMBER", "7"); ("WORKSPACE_PATH", "/workspace");
          ("GITHUB_OUTPUT", "/runner/file_commands/set_output_1");
          ("REPO_URL", "https://github.com/org/repo");
          ("COMMIT_SHA", "abc123"); ("RUN_ID", "99");
          ("RUNNER_TEMP", "/runner/temp")].

Definition world_of (e : string -> option string) (i : Imported)
    (writable : bool) : World :=
  mkWorld e "/workspace" "/action/scripts" i 1700000000000
    (fun _ => true) (fun _ => writable) (fun _ => true).

Definition engine_returning (l : list Offense) : Imported :=
  EngineFunction (fun _ => Resolves (WithOffenses l)).

(** A run that finds one error and one warning. *)
Definition mixed : World :=
  world_of full_env (engine_returning [header_error; info; footer_warning]) true.

(** A run that finds one warning only. *)
Definition warning_only : World :=
  world_of full_env (engine_returning [footer_warning]) true.

(** The report file cannot be written. *)
Definition read_only_temp : World :=
  world_of full_env (engine_returning []) false.


(** The output destination is not set. *)
Definition no_output : World :=
  world_of (env_of [("PR_NUMBER", "7"); ("RUNNER_TEMP", "/runner/temp")])
    (engine_returning [header_error]) true.

End Samples.

(** ** Further vocabulary *)

(** What [escapeValue] makes of one character. *)
Definition escapeChar (c : ascii) : string :=
  if Ascii.eqb c "%" then "%25"
  else if Ascii.eqb c (ascii_of_nat 10) then "%0A"
  else if Ascii.eqb c (ascii_of_nat 13) then "%0D"
  else String c "".

(** Reads an escaped value back: the three escapes give their character,
    every other character stands for itself. *)
Fixpoint unescapeValue (s : string) : string :=
  match s with
  | EmptyString => ""
  | String c rest =>
      if Ascii.eqb c "%" then
        match rest with
        | String a (String b rest') =>
            if Ascii.eqb a "2" && Ascii.eqb b "5"
            then String "%" (unescapeValue rest')
            else if Ascii.eqb a "0" && Ascii.eqb b "A"
            then String (ascii_of_nat 10) (unescapeValue rest')
            else if Ascii.eqb a "0" && Ascii.eqb b "D"
            then String (ascii_of_nat 13) (unescapeValue rest')
            else String c (unescapeValue rest)
        | _ => String c (unescapeValue rest)
        end
      else String c (unescapeValue rest)
  end.

(** Whether the character [c] occurs in [s]. *)
Fixpoint has_char (c : ascii) (s : string) : bool :=
  match s with
  | EmptyString => false
  | String a rest => Ascii.eqb a c || has_char c rest
  end.

(** The lines that reach the output file when [setOutput] is called for
    [calls] in turn, the first call being the [n]-th append of the run. *)
Fixpoint lines_landed (w : World) (n : nat) (calls : list (string * string))
    : list string :=
  match calls with
  | [] => []
  | call :: rest =>
      ((if append_permitted w n then [render call] else [])
         ++ lines_landed w (S n) rest)%list
  end.

(** The world [w] with the environment variable [k] set to [v], or unset. *)
Definition with_env (k : string) (v : option string) (w : World) : World :=
  mkWorld (fun k' => if String.eqb k' k then v else env w k')
    (cwd w) (script_dir w) (imported w) (now w) (existsSync w)
    (write_permitted w) (append_permitted w).

(** The world [w] with another fate for the appends to the output file. *)
Definition with_append_permitted (f : nat -> bool) (w : World) : World :=
  mkWorld (env w) (cwd w) (script_dir w) (imported w) (now w) (existsSync w)
    (write_permitted w) f.

(** The environment variables the script reads. *)
Definition variables_read : list string :=
  ["PR_NUMBER"; "WORKSPACE_PATH"; "GITHUB_OUTPUT"; "REPO_URL"; "COMMIT_SHA";
   "RUN_ID"; "FAIL_ON_WARNINGS"; "RUNNER_TEMP"].

(** Those it reads with [||], for which an empty value is as good as none,
    and the flag, which only the literal [true] sets. *)
Definition variables_defaulted : list string :=
  ["PR_NUMBER"; "WORKSPACE_PATH"; "REPO_URL"; "COMMIT_SHA"; "RUN_ID";
   "FAIL_ON_WARNINGS"; "RUNNER_TEMP"].

(** The error raised when [themeCheckRun] is of type [typeof]. *)
Definition not_a_function_error (typeof : string) : Thrown :=
  Error ("Failed to access themeCheckRun function correctly "
           ++ "from '@shopify/theme-check-node'. "
           ++ "Expected function, got: " ++ typeof).

(** The directory [writeCommentBodyToFile] writes into. *)
Definition tempDir (w : World) : string :=
  Js.or_else (env w "RUNNER_TEMP") (script_dir w).

(** What [path.join(dir, name)] puts in front of a plain file name: the
    normalised directory with its separator, nothing for an empty [dir]. *)
Definition dir_prefix (dir : string) : string :=
  match dir with
  | EmptyString => ""
  | String c _ =>
      let isAbsolute := Ascii.eqb c NodePath.sep in
      (if isAbsolute then "/" else "")
        ++ match NodePath.normalize_segments (negb isAbsolute) []
                   (NodePath.segments dir) with
           | [] => ""
           | kept => Js.join "/" kept ++ "/"
           end
  end.

Module MoreSamples.

(** An offense the engine gave no uri. *)
Definition no_uri : Offense :=
  mkOffense None (Some (mkPosition (Some 5%Z) (Some 1%Z))) 0
    (Some "Parse failure") (Some "ParserBlockingScript").

(** An offense located by something else than a [file://] uri. *)
Definition web_uri : Offense :=
  mkOffense (Some "https://cdn.example.com/app.js")
    (Some (mkPosition (Some 2%Z) (Some 7%Z))) 1
    (Some "Remote asset") (Some "RemoteAsset").

(** An offense whose uri has a malformed escape. *)
Definition bad_escape : Offense :=
  mkOffense (Some "file:///workspace/sections/50%.liquid")
    (Some (mkPosition (Some 9%Z) (Some 3%Z))) 0 None None.

(** An offense whose path has three separators after the workspace. *)
Definition tripled_separator : Offense :=
  mkOffense (Some "file:///workspace///a.liquid")
    (Some (mkPosition (Some 3%Z) (Some 1%Z))) 0
    (Some "Unknown tag") (Some "LiquidHTMLSyntaxError").

(** The engine rejects with [undefined]. *)
Definition engine_rejects_undefined : World :=
  Samples.world_of Samples.full_env
    (EngineFunction (fun _ => Rejects (ThrownNullish Undefined))) true.

(** The package loads but exports no [themeCheckRun]. *)
Definition no_export : World :=
  Samples.world_of Samples.full_env (NotAFunction "undefined") true.

(** Nothing to report. *)
Definition clean : World :=
  Samples.world_of Samples.full_env
    (Samples.engine_returning [Samples.info]) true.

(** The first and the third append meet an I/O error. *)
Definition flaky_output : World :=
  mkWorld Samples.full_env "/workspace" "/action/scripts"
    (Samples.engine_returning [Samples.header_error]) 1700000000000
    (fun _ => true) (fun _ => true)
    (fun n => negb (Nat.eqb n 0 || Nat.eqb n 2)).

End MoreSamples.

(** * Properties *)

(** ** Strings *)

Lemma truthy_true (s : string) : Js.truthy s = true <-> s <> "".
Proof. destruct s; simpl; split; intros; congruence. Qed.

Lemma truthy_false (s : string) : Js.truthy s = false <-> s = "".
Proof. destruct s; simpl; split; intros; congruence. Qed.

Lemma startsWith_app (p t : string) : Js.startsWith (p ++ t) p = true.
Proof.
  unfold Js.startsWith.
  induction p as [|c p IH]; simpl.
  - now destruct t.
  - destruct (ascii_dec c c); [exact IH | congruence].
Qed.

Lemma startsWith_split (s p : string) :
  Js.startsWith s p = true <-> exists t, s = p ++ t.
Proof.
  split.
  - unfold Js.startsWith. revert s.
    induction p as [|c p IH]; intros s H.
    + now exists s.
    + destruct s as [|d s]; simpl in H; [discriminate|].
      destruct (ascii_dec c d) as [->|]; [|discriminate].
      destruct (IH _ H) as [t ->]. now exists t.
  - intros [t ->]. apply startsWith_app.
Qed.

Lemma substring_from_app (p t : string) :
  Js.substring_from (String.length p) (p ++ t) = t.
Proof. induction p as [|c p IH]; simpl; [now destruct t | exact IH]. Qed.

Lemma startsWith_rejoin (s p : string) :
  Js.startsWith s p = true ->
  p ++ Js.substring_from (String.length p) s = s.
Proof.
  intros H. apply startsWith_split in H as [t ->].
  now rewrite substring_from_app.
Qed.

Lemma append_assoc (a b c : string) : (a ++ b) ++ c = a ++ (b ++ c).
Proof. induction a as [|x a IH]; simpl; [reflexivity | now rewrite IH]. Qed.

Lemma append_empty_r (a : string) : a ++ "" = a.
Proof. induction a as [|x a IH]; simpl; [reflexivity | now rewrite IH]. Qed.

(** Brings both sides of an equation between concatenations to the
    right-nested form. *)
Ltac string_assoc :=
  repeat first [rewrite append_assoc | progress cbn [append]].

Lemma startsWith_shorter (s p t : string) :
  Js.startsWith s (p ++ t) = true -> Js.startsWith s p = true.
Proof.
  intros H. apply startsWith_split in H as [u ->].
  rewrite append_assoc. apply startsWith_app.
Qed.

Lemma endsWith_sep_cons (c : ascii) (rest : string) :
  rest <> "" ->
  Js.endsWith (String c rest) "/" = Js.endsWith rest "/".
Proof.
  intros Hne. destruct rest as [|d rest]; [congruence|].
  unfold Js.endsWith. cbn [String.length].
  replace (S (S (String.length rest)) - 1)%nat with (S (String.length rest))
    by lia.
  replace (S (String.length rest) - 1)%nat with (String.length rest) by lia.
  reflexivity.
Qed.

Lemma endsWith_sep_single (c : ascii) :
  Js.endsWith (String c "") "/" = Ascii.eqb c "/".
Proof.
  unfold Js.endsWith. simpl.
  destruct (Ascii.eqb c "/"); reflexivity.
Qed.

(** ** The workspace root *)

Lemma baseWorkspacePath_cases (ws : string) :
  (Js.endsWith ws "/" = true /\ baseWorkspacePath ws = ws)
  \/ (Js.endsWith ws "/" = false /\ baseWorkspacePath ws = ws ++ "/").
Proof.
  unfold baseWorkspacePath. destruct (Js.endsWith ws "/"); auto.
Qed.

Lemma baseWorkspacePath_cons (c : ascii) (rest : string) :
  rest <> "" ->
  baseWorkspacePath (String c rest) = String c (baseWorkspacePath rest).
Proof.
  intros Hne. unfold baseWorkspacePath.
  rewrite endsWith_sep_cons by assumption.
  destruct (Js.endsWith rest "/"); reflexivity.
Qed.

(** The root the script compares with extends the root brought to one
    trailing separator. *)
Lemma base_extends_root (ws : string) :
  exists t, baseWorkspacePath ws = root_with_one_separator ws ++ t.
Proof.
  induction ws as [|c rest IH].
  - now exists "".
  - cbn [root_with_one_separator].
    destruct (only_separators (String c rest)) eqn:Hall.
    + simpl in Hall. apply andb_prop in Hall as [Hc _].
      apply Ascii.eqb_eq in Hc. subst c.
      destruct (baseWorkspacePath_cases (String "/" rest)) as [[_ ->]|[_ ->]].
      * now exists rest.
      * now exists (rest ++ "/").
    + destruct rest as [|d rest].
      * simpl in Hall. rewrite andb_true_r in Hall.
        unfold baseWorkspacePath. rewrite endsWith_sep_single, Hall.
        now exists "".
      * rewrite baseWorkspacePath_cons by congruence.
        destruct IH as [t ->]. now exists t.
Qed.

Lemma only_separators_two (s : string) :
  only_separators s = true -> (2 <= String.length s)%nat ->
  exists t, s = t ++ "//".
Proof.
  induction s as [|c s IH]; simpl; intros Hall Hlen; [lia|].
  apply andb_prop in Hall as [Hc Hall].
  apply Ascii.eqb_eq in Hc. subst c.
  destruct s as [|d s]; [simpl in Hlen; lia|].
  destruct s as [|e s].
  - simpl in Hall. apply andb_prop in Hall as [Hd _].
    apply Ascii.eqb_eq in Hd. subst d. now exists "".
  - destruct IH as [t Ht]; [assumption | simpl; lia |].
    exists (String "/" t). simpl. now rewrite <- Ht.
Qed.

(** Both roots agree unless the configured root ends with two separators. *)
Lemma base_is_root (ws : string) :
  (forall t, ws <> t ++ "//") ->
  baseWorkspacePath ws = root_with_one_separator ws.
Proof.
  induction ws as [|c rest IH]; intros Hno.
  - reflexivity.
  - cbn [root_with_one_separator].
    destruct (only_separators (String c rest)) eqn:Hall.
    + destruct rest as [|d rest].
      * simpl in Hall. rewrite andb_true_r in Hall.
        apply Ascii.eqb_eq in Hall. now subst c.
      * destruct (only_separators_two _ Hall) as [t Ht]; [simpl; lia|].
        now elim (Hno t).
    + destruct rest as [|d rest].
      * simpl in Hall. rewrite andb_true_r in Hall.
        unfold baseWorkspacePath. now rewrite endsWith_sep_single, Hall.
      * rewrite baseWorkspacePath_cons by congruence.
        rewrite IH; [reflexivity|].
        intros t Ht. apply (Hno (String c t)). simpl. now rewrite Ht.
Qed.

(** ** Resolution of one offense *)

Lemma linkPath_cases (rel : string) :
  (Js.startsWith rel "/" = false /\ linkPath rel = rel)
  \/ (Js.startsWith rel "/" = true /\ rel = "/" ++ linkPath rel).
Proof.
  unfold linkPath. destruct (Js.startsWith rel "/") eqn:H; [right | left; auto].
  split; [reflexivity|].
  apply startsWith_split in H as [t ->]. reflexivity.
Qed.

Lemma resolve_not_file (u : string) (row : Z) (ws repo sha : string) :
  Js.startsWith u "file://" = false ->
  resolve u row ws repo sha = mkResolved u "".
Proof. intros H. unfold resolve. now rewrite H. Qed.

Lemma resolve_undecodable (u : string) (row : Z) (ws repo sha : string) :
  Js.startsWith u "file://" = true ->
  Js.decodeURIComponent (Js.substring_from 7 u) = None ->
  resolve u row ws repo sha = mkResolved u "".
Proof. intros H1 H2. unfold resolve. now rewrite H1, H2. Qed.

Lemma resolve_outside (u d : string) (row : Z) (ws repo sha : string) :
  Js.startsWith u "file://" = true ->
  Js.decodeURIComponent (Js.substring_from 7 u) = Some d ->
  Js.startsWith d (baseWorkspacePath ws) = false ->
  resolve u row ws repo sha = mkResolved d "".
Proof. intros H1 H2 H3. unfold resolve. now rewrite H1, H2, H3. Qed.

Lemma resolve_inside (u d : string) (row : Z) (ws repo sha : string) :
  Js.startsWith u "file://" = true ->
  Js.decodeURIComponent (Js.substring_from 7 u) = Some d ->
  Js.startsWith d (baseWorkspacePath ws) = true ->
  let rel := Js.substring_from (String.length (baseWorkspacePath ws)) d in
  resolve u row ws repo sha =
    mkResolved rel
      (if Js.truthy repo && Js.truthy sha
          && negb (String.eqb rel "unknown_path") && (0 <? row)%Z
       then repo ++ "/blob/" ++ sha ++ "/" ++ linkPath rel ++ "#L"
              ++ Js.number_toString row
       else "").
Proof.
  intros H1 H2 H3 rel. unfold resolve. rewrite H1, H2, H3. fold rel.
  destruct (Js.truthy repo && Js.truthy sha
            && negb (String.eqb rel "unknown_path") && (0 <? row)%Z);
    reflexivity.
Qed.

Lemma link_nonempty (repo sha p n : string) :
  Js.truthy repo = true ->
  Js.truthy (repo ++ "/blob/" ++ sha ++ "/" ++ p ++ "#L" ++ n) = true.
Proof. destruct repo; simpl; congruence. Qed.

(** When a link comes out, all of its ingredients were there. *)
Lemma resolve_link_inv (u : string) (row : Z) (ws repo sha : string) :
  Js.truthy (fileLink (resolve u row ws repo sha)) = true ->
  exists d,
    Js.startsWith u "file://" = true
    /\ Js.decodeURIComponent (Js.substring_from 7 u) = Some d
    /\ Js.startsWith d (baseWorkspacePath ws) = true
    /\ relativePath (resolve u row ws repo sha)
       = Js.substring_from (String.length (baseWorkspacePath ws)) d
    /\ Js.truthy repo && Js.truthy sha
       && negb (String.eqb (relativePath (resolve u row ws repo sha))
                  "unknown_path")
       && (0 <? row)%Z = true.
Proof.
  intros H.
  destruct (Js.startsWith u "file://") eqn:H1;
    [|rewrite resolve_not_file in H by assumption; discriminate].
  destruct (Js.decodeURIComponent (Js.substring_from 7 u)) as [d|] eqn:H2;
    [|rewrite resolve_undecodable in H by assumption; discriminate].
  destruct (Js.startsWith d (baseWorkspacePath ws)) eqn:H3;
    [|rewrite (resolve_outside u d) in H by assumption; discriminate].
  exists d. rewrite (resolve_inside u d) in * by assumption.
  cbn [relativePath fileLink] in *.
  repeat split; try reflexivity; try assumption.
  destruct (Js.truthy repo && Js.truthy sha
            && negb (String.eqb _ "unknown_path") && (0 <? row)%Z);
    [reflexivity | discriminate].
Qed.

Lemma fileLink_empty_or_truthy (r : Resolved) :
  fileLink r = "" <-> Js.truthy (fileLink r) = false.
Proof. symmetry. apply truthy_false. Qed.

Lemma formatOffenseBlock_plain (o : Offense) (ws repo sha : string) :
  fileLink (resolve (offenseUri o) (startRow o) ws repo sha) = "" ->
  formatOffenseBlock o ws repo sha
  = "- " ++ relativePath (resolve (offenseUri o) (startRow o) ws repo sha)
      ++ locationSuffix o ++ LF ++ "  " ++ description o.
Proof.
  intros H. unfold formatOffenseBlock, pathLink. now rewrite H.
Qed.

(** C3, as the spec words it, with any leading separator stripped: false
    for a relative path that starts with two separators.  With the
    workspace [/workspace] and the uri [file:///workspace///a.liquid] the
    relative path is [//a.liquid]; the script removes one separator and
    the link is [r/blob/c//a.liquid#L3], with a doubled separator. *)
Lemma link_keeps_second_separator : ~ link_strips_any_leading_separator.
Proof.
  intros H.
  specialize (H MoreSamples.tripled_separator "/workspace" "r" "c" eq_refl).
  vm_compute in H. discriminate H.
Qed.

Lemma linkPath_strips_all (rel : string) :
  Js.startsWith rel "//" = false ->
  linkPath rel = strip_leading_separators rel.
Proof.
  destruct rel as [|c rel]; [reflexivity|].
  unfold linkPath, Js.startsWith. cbn [String.prefix strip_leading_separators].
  destruct (ascii_dec "/" c) as [<-|Hc].
  - cbn [Ascii.eqb Bool.eqb Js.substring_from].
    destruct rel as [|d rel]; [reflexivity|].
    cbn [strip_leading_separators String.prefix].
    destruct (ascii_dec "/" d) as [<-|Hd].
    + destruct rel; discriminate.
    + intros _. apply not_eq_sym, Ascii.eqb_neq in Hd. now rewrite Hd.
  - intros _. apply not_eq_sym, Ascii.eqb_neq in Hc. rewrite Hc.
    now destruct rel.
Qed.

(** C3, amended.  A link is produced exactly when a repository URL and a
    commit identifier are configured, a workspace-relative path other than
    the sentinel was derived from a [file://] uri, and the starting line
    is positive.  The link is then the repository URL, [/blob/], the
    commit, [/], the relative path without its first separator when it
    starts with one, [#L] and the starting line; unless the relative path
    starts with two separators, that is the relative path with any leading
    separator stripped.  The offense of scenario B gets the link
    [https://github.com/org/repo/blob/abc123/sections/header.liquid#L12]. *)
Theorem link_produced_iff :
  (forall (o : Offense) (ws repo sha : string),
      let r := resolve (offenseUri o) (startRow o) ws repo sha in
      (Js.truthy (fileLink r) = true <->
         repo <> "" /\ sha <> ""
         /\ (exists d rel,
                Js.startsWith (offenseUri o) "file://" = true
                /\ Js.decodeURIComponent (Js.substring_from 7 (offenseUri o))
                   = Some d
                /\ d = baseWorkspacePath ws ++ rel
                /\ rel <> "unknown_path")
         /\ (0 < startRow o)%Z)
      /\ (Js.truthy (fileLink r) = true ->
            Js.decodeURIComponent (Js.substring_from 7 (offenseUri o))
            = Some (baseWorkspacePath ws ++ relativePath r)
            /\ fileLink r
               = repo ++ "/blob/" ++ sha ++ "/" ++ linkPath (relativePath r)
                   ++ "#L" ++ Js.number_toString (startRow o)
            /\ formatOffenseBlock o ws repo sha
               = "- [" ++ relativePath r ++ "](" ++ fileLink r ++ ")"
                   ++ locationSuffix o ++ LF ++ "  " ++ description o)
      /\ (Js.truthy (fileLink r) = false ->
            formatOffenseBlock o ws repo sha
            = "- " ++ relativePath r ++ locationSuffix o ++ LF ++ "  "
                ++ description o))
  /\ (forall rel : string,
         (Js.startsWith rel "/" = false /\ linkPath rel = rel)
         \/ rel = "/" ++ linkPath rel)
  /\ (forall rel : string,
         Js.startsWith rel "//" = false ->
         linkPath rel = strip_leading_separators rel)
  /\ formatOffenseBlock Samples.header_error "/workspace"
       "https://github.com/org/repo" "abc123"
     = "- [sections/header.liquid]"
         ++ "(https://github.com/org/repo/blob/abc123/sections/header.liquid#L12)"
         ++ ":`12:4`" ++ LF ++ "  Unknown tag (LiquidHTMLSyntaxError)".
Proof.
  split; [|split; [|split; [exact linkPath_strips_all|]]].
  - intros o ws repo sha r. split; [split|split].
    + intros H. destruct (resolve_link_inv _ _ _ _ _ H)
        as (d & H1 & H2 & H3 & Hrel & Hcond).
      fold r in Hrel, Hcond.
      apply andb_prop in Hcond as [Hcond Hrow].
      apply andb_prop in Hcond as [Hcond Hsent].
      apply andb_prop in Hcond as [Hrepo Hsha].
      apply truthy_true in Hrepo, Hsha. apply Z.ltb_lt in Hrow.
      apply negb_true_iff, String.eqb_neq in Hsent.
      repeat split; try assumption.
      exists d, (relativePath r). repeat split; try assumption.
      rewrite Hrel. symmetry. now apply startsWith_rejoin.
    + intros (Hrepo & Hsha & (d & rel & H1 & H2 & -> & Hsent) & Hrow).
      subst r. rewrite (resolve_inside _ _ _ _ _ _ H1 H2 (startsWith_app _ _)).
      cbn [fileLink]. rewrite substring_from_app.
      apply truthy_true in Hrepo, Hsha. apply Z.ltb_lt in Hrow.
      apply String.eqb_neq in Hsent.
      rewrite Hrepo, Hsha, Hsent, Hrow. cbn [andb negb].
      now apply link_nonempty.
    + intros H. destruct (resolve_link_inv _ _ _ _ _ H)
        as (d & H1 & H2 & H3 & Hrel & Hcond).
      fold r in Hrel, Hcond.
      split; [|split].
      * rewrite H2, Hrel. f_equal. symmetry. now apply startsWith_rejoin.
      * subst r. rewrite (resolve_inside _ _ _ _ _ _ H1 H2 H3) in *.
        cbn [fileLink relativePath] in *. now rewrite Hcond.
      * subst r. unfold formatOffenseBlock, pathLink. rewrite H.
        now string_assoc.
    + intros H. apply formatOffenseBlock_plain.
      now apply fileLink_empty_or_truthy.
  - intros rel. destruct (linkPath_cases rel) as [?|[_ ?]]; auto.
  - vm_compute. reflexivity.
Qed.

Lemma link_produced_iff_witness :
  Js.truthy
    (fileLink (resolve (offenseUri Samples.header_error)
                 (startRow Samples.header_error) "/workspace"
                 "https://github.com/org/repo" "abc123")) = true
  /\ fileLink (resolve (offenseUri Samples.header_error)
                 (startRow Samples.header_error) "/workspace"
                 "https://github.com/org/repo" "abc123")
     = "https://github.com/org/repo/blob/abc123/sections/header.liquid#L12".
Proof.
  assert (H : Js.truthy
                (fileLink (resolve (offenseUri Samples.header_error)
                             (startRow Samples.header_error) "/workspace"
                             "https://github.com/org/repo" "abc123")) = true)
    by reflexivity.
  split; [exact H|].
  destruct (proj1 link_produced_iff Samples.header_error "/workspace"
              "https://github.com/org/repo" "abc123") as (_ & Hlink & _).
  destruct (Hlink H) as (_ & -> & _). reflexivity.
Defined.

(** C7.  An offense without [start] gets the location [0:0] in a code
    span and never a link, whatever repository URL, commit and path are at
    hand. *)
Theorem absent_start_never_links (o : Offense) (ws repo sha : string) :
  start o = None ->
  locationSuffix o = ":`0:0`"
  /\ fileLink (resolve (offenseUri o) (startRow o) ws repo sha) = ""
  /\ formatOffenseBlock o ws repo sha
     = "- " ++ relativePath (resolve (offenseUri o) (startRow o) ws repo sha)
         ++ ":`0:0`" ++ LF ++ "  " ++ description o.
Proof.
  intros Hstart.
  assert (Hrow : startRow o = 0%Z) by (unfold startRow; now rewrite Hstart).
  assert (Hsuffix : locationSuffix o = ":`0:0`")
    by (unfold locationSuffix, startRow, startCol; now rewrite Hstart).
  assert (Hlink : fileLink (resolve (offenseUri o) (startRow o) ws repo sha) = "").
  { apply fileLink_empty_or_truthy.
    destruct (Js.truthy (fileLink _)) eqn:H; [|reflexivity].
    destruct (resolve_link_inv _ _ _ _ _ H) as (d & _ & _ & _ & _ & Hcond).
    rewrite Hrow in Hcond. cbn [Z.ltb Z.compare] in Hcond.
    now rewrite andb_false_r in Hcond. }
  repeat split; try assumption.
  rewrite formatOffenseBlock_plain by assumption. now rewrite Hsuffix.
Qed.

Lemma absent_start_never_links_witness :
  start Samples.no_start = None
  /\ formatOffenseBlock Samples.no_start "/workspace"
       "https://github.com/org/repo" "abc123"
     = "- layout/theme.liquid:`0:0`" ++ LF ++ "  Missing asset (MissingAsset)".
Proof.
  split; [reflexivity|].
  destruct (absent_start_never_links Samples.no_start "/workspace"
              "https://github.com/org/repo" "abc123" eq_refl) as (_ & _ & ->).
  reflexivity.
Defined.

(** C8.  When the decoded path of a [file://] uri does not start with the
    workspace root (as the script normalises it, or brought to exactly one
    trailing separator), the decoded path is shown as it is and no link is
    produced, whatever the other link inputs are. *)
Theorem outside_workspace_never_links
    (o : Offense) (ws repo sha d : string) :
  Js.startsWith (offenseUri o) "file://" = true ->
  Js.decodeURIComponent (Js.substring_from 7 (offenseUri o)) = Some d ->
  Js.startsWith d (baseWorkspacePath ws) = false
  \/ Js.startsWith d (root_with_one_separator ws) = false ->
  relativePath (resolve (offenseUri o) (startRow o) ws repo sha) = d
  /\ fileLink (resolve (offenseUri o) (startRow o) ws repo sha) = ""
  /\ formatOffenseBlock o ws repo sha
     = "- " ++ d ++ locationSuffix o ++ LF ++ "  " ++ description o.
Proof.
  intros H1 H2 Hout.
  assert (H3 : Js.startsWith d (baseWorkspacePath ws) = false).
  { destruct Hout as [?|Hroot]; [assumption|].
    destruct (Js.startsWith d (baseWorkspacePath ws)) eqn:H; [|reflexivity].
    destruct (base_extends_root ws) as [t Ht]. rewrite Ht in H.
    apply startsWith_shorter in H. congruence. }
  pose proof (resolve_outside _ _ (startRow o) ws repo sha H1 H2 H3) as Hres.
  rewrite formatOffenseBlock_plain by now rewrite Hres.
  rewrite Hres. auto.
Qed.

Lemma outside_workspace_never_links_witness :
  formatOffenseBlock Samples.outside "/workspace"
    "https://github.com/org/repo" "abc123"
  = "- /elsewhere/snippets/a b.liquid:`8:2`" ++ LF
      ++ "  No message (No check code)".
Proof.
  destruct (outside_workspace_never_links Samples.outside "/workspace"
              "https://github.com/org/repo" "abc123"
              "/elsewhere/snippets/a b.liquid" eq_refl eq_refl
              (or_introl eq_refl)) as (_ & _ & ->).
  reflexivity.
Defined.

(** C9, as the spec words it: false for a root that ends with two
    separators.  With the root [/w//] and the uri [file:///w//a.liquid] the
    script strips [/w//] and keeps [a.liquid]; the root with exactly one
    trailing separator, [/w/], gives back [/w/a.liquid]. *)
Lemma rejoin_one_separator_fails : ~ rejoins_with_one_separator.
Proof.
  intros H.
  specialize (H "file:///w//a.liquid" 1%Z "/w//" "" "" "/w//a.liquid"
                eq_refl eq_refl eq_refl).
  vm_compute in H.
  assert (Hne : "/w//a.liquid" <> "/w/") by discriminate.
  specialize (H Hne). discriminate H.
Qed.

(** C9, amended.  For a decoded path that starts with the root as the
    script normalises it (the root itself when it ends with a separator,
    the root plus one separator otherwise), that root followed by the
    relative path is the decoded path again; unless the configured root
    ends with two separators, this is the root with exactly one trailing
    separator. *)
Theorem rejoin_roundtrip (o : Offense) (ws repo sha d : string) :
  Js.startsWith (offenseUri o) "file://" = true ->
  Js.decodeURIComponent (Js.substring_from 7 (offenseUri o)) = Some d ->
  Js.startsWith d (baseWorkspacePath ws) = true ->
  baseWorkspacePath ws
    ++ relativePath (resolve (offenseUri o) (startRow o) ws repo sha) = d
  /\ ((Js.endsWith ws "/" = true /\ baseWorkspacePath ws = ws)
      \/ (Js.endsWith ws "/" = false /\ baseWorkspacePath ws = ws ++ "/"))
  /\ ((forall t, ws <> t ++ "//") ->
      root_with_one_separator ws
        ++ relativePath (resolve (offenseUri o) (startRow o) ws repo sha) = d).
Proof.
  intros H1 H2 H3.
  assert (Hjoin : baseWorkspacePath ws
            ++ relativePath (resolve (offenseUri o) (startRow o) ws repo sha)
          = d).
  { rewrite (resolve_inside _ _ _ _ _ _ H1 H2 H3). cbn [relativePath].
    now apply startsWith_rejoin. }
  split; [exact Hjoin|]. split; [apply baseWorkspacePath_cases|].
  intros Hno. now rewrite <- (base_is_root ws Hno).
Qed.

Lemma rejoin_roundtrip_witness :
  "/workspace/"
    ++ relativePath (resolve (offenseUri Samples.header_error)
                       (startRow Samples.header_error) "/workspace" "" "")
  = "/workspace/sections/header.liquid".
Proof.
  exact (proj1 (rejoin_roundtrip Samples.header_error "/workspace" "" ""
                  "/workspace/sections/header.liquid"
                  eq_refl eq_refl eq_refl)).
Defined.

(** ** The steps of a run *)

Lemma output_path_valid_attempts (w : World) :
  output_path_valid w = true -> attempts_append w = true.
Proof.
  unfold output_path_valid, attempts_append.
  destruct (outputFilePath w) as [p|]; [|discriminate].
  intros H. now apply andb_prop in H.
Qed.

Lemma setOutput_run (w : World) (name value : string) (st : State) :
  setOutput w name value st = (Returned tt, after_setOutput w name value st).
Proof.
  unfold setOutput, after_setOutput, output_path_valid, attempts_append,
    bind, modify, try_catch, ret, appendFileSync, render.
  destruct (outputFilePath w) as [p|]; cbn -[append escapeValue LF].
  - destruct (Js.truthy p); cbn -[append escapeValue LF].
    + destruct (existsSync w (NodePath.dirname p)); cbn -[append escapeValue LF];
        [destruct (append_permitted w (append_attempts st))|];
        cbn -[append escapeValue LF]; rewrite ?app_nil_r; reflexivity.
    + now rewrite app_nil_r.
  - now rewrite app_nil_r.
Qed.

Lemma rejects_nullish_true (w : World) :
  rejects_nullish w = true <->
  output_path_valid w = true
  /\ exists run v, imported w = EngineFunction run
                  /\ run (themePath w) = Rejects (ThrownNullish v).
Proof.
  unfold rejects_nullish, engine_outcome.
  destruct (output_path_valid w).
  - destruct (imported w) as [|typeof|run].
    + split; [discriminate | intros (_ & run & v & H & _); discriminate].
    + split; [discriminate | intros (_ & run & v & H & _); discriminate].
    + destruct (run (themePath w)) as [r|[m s|v]] eqn:Hrun.
      * split; [discriminate|].
        intros (_ & run' & v & [= <-] & H). congruence.
      * split; [discriminate|].
        intros (_ & run' & v & [= <-] & H). congruence.
      * split; [eauto|reflexivity].
  - split; [discriminate | intros [H _]; discriminate].
Qed.

Lemma rejects_nullish_reaches (w : World) :
  rejects_nullish w = true -> reaches_runCheck w = true.
Proof.
  intros H. apply rejects_nullish_true in H as (_ & run & v & Himp & _).
  unfold reaches_runCheck. now rewrite Himp.
Qed.

Lemma offenses_not_nullish (w : World) (l : list Offense) :
  engine_offenses w = Some l -> rejects_nullish w = false.
Proof.
  unfold engine_offenses, rejects_nullish.
  destruct (engine_outcome w) as [[[l'|]|e]|]; try discriminate. reflexivity.
Qed.

Lemma invalid_not_nullish (w : World) :
  output_path_valid w = false -> rejects_nullish w = false.
Proof.
  intros H. unfold rejects_nullish, engine_outcome. now rewrite H.
Qed.

Lemma nullish_no_offenses (w : World) :
  rejects_nullish w = true -> engine_offenses w = None.
Proof.
  intros H. destruct (engine_offenses w) as [l|] eqn:Hoff; [|reflexivity].
  apply offenses_not_nullish in Hoff. congruence.
Qed.

Lemma no_call_not_nullish (w : World) :
  engine_outcome w = None -> rejects_nullish w = false.
Proof. intros H. unfold rejects_nullish. now rewrite H. Qed.

Lemma check_returns (w : World) :
  rejects_nullish w = false ->
  try_catch (check_and_classify w) script_failed initial_state
  = (Returned tt, after_check w).
Proof.
  unfold rejects_nullish, engine_outcome.
  unfold after_check, try_catch, check_and_classify, script_failed,
    get_message, bind, throw, ret, call_engine, assign, modify.
  destruct (output_path_valid w); cbn [negb]; [|reflexivity].
  destruct (imported w) as [|typeof|run]; try reflexivity.
  destruct (run (themePath w)) as [[l|]|[m s|v]]; try reflexivity.
  discriminate.
Qed.

(** The handler raised: [runCheck] is left with the summary assigned. *)
Lemma check_crashes (w : World) :
  rejects_nullish w = true ->
  exists e,
    try_catch (check_and_classify w) script_failed initial_state
    = (Raised e, crashed_state).
Proof.
  intros H. apply rejects_nullish_true in H as (Hvalid & run & v & Himp & Hrun).
  unfold try_catch, check_and_classify, script_failed, get_message, bind,
    throw, ret, call_engine, assign, modify.
  rewrite Hvalid, Himp. cbn [negb]. rewrite Hrun.
  eexists. reflexivity.
Qed.

Lemma after_check_crashed (w : World) :
  rejects_nullish w = true -> after_check w = crashed_state.
Proof.
  intros H. unfold after_check.
  destruct (check_crashes w H) as [e ->]. reflexivity.
Qed.

(** The engine answered with offenses: counts, summary, body and verdict. *)
Lemma after_check_offenses (w : World) (l : list Offense) :
  engine_offenses w = Some l ->
  after_check w
  = mkState
      (mkVars (List.length (errorOffenses l)) (List.length (warningOffenses l))
         (summaryOf (List.length (errorOffenses l))
            (List.length (warningOffenses l)))
         (reportBodyOf l (workspacePath w) (repoUrl w) (commitSha w))
         (if (0 <? List.length (errorOffenses l))%nat then true
          else if (0 <? List.length (warningOffenses l))%nat
                  && failOnWarnings w then true
          else false))
      [] [] 1 0 [].
Proof.
  unfold engine_offenses, engine_outcome.
  destruct (output_path_valid w) eqn:Hvalid; [|discriminate].
  destruct (imported w) as [|typeof|run] eqn:Himp; try discriminate.
  destruct (run (themePath w)) as [[l'|]|e] eqn:Hrun; try discriminate.
  intros [= ->].
  unfold after_check, try_catch, check_and_classify, script_failed, bind,
    throw, ret, call_engine, assign, modify.
  rewrite Hvalid, Himp. cbn [negb]. rewrite Hrun.
  reflexivity.
Qed.

(** The first [try] block raised and its handler went through: the
    degraded report, and the verdict. *)
Lemma after_check_failed (w : World) :
  engine_offenses w = None ->
  rejects_nullish w = false ->
  after_check w
  = mkState
      (mkVars 0 0 "Error: Failed to run theme check script."
         (script_failed_body (setup_error w)) true)
      [] []
      (match engine_outcome w with Some _ => 1 | None => 0 end) 0 [].
Proof.
  unfold engine_offenses, rejects_nullish, engine_outcome, setup_error,
    script_failed_body, error_text.
  unfold after_check, try_catch, check_and_classify, script_failed,
    get_message, bind, throw, ret, call_engine, assign, modify.
  destruct (output_path_valid w); cbn [negb]; [|reflexivity].
  destruct (imported w) as [|typeof|run]; try reflexivity.
  destruct (run (themePath w)) as [[l'|]|[m s|v]]; try discriminate;
    reflexivity.
Qed.

Lemma writeCommentBodyToFile_fails (w : World) (body : string) (st : State) :
  write_succeeds w = false ->
  exists e, writeCommentBodyToFile w body st = (Raised e, st).
Proof.
  unfold write_succeeds, writeCommentBodyToFile, bind, writeFileSync.
  intros ->. eauto.
Qed.

Lemma publish_run (w : World) (st : State) :
  publish w st = (Returned tt, after_publish w st).
Proof.
  unfold publish, after_publish, try_catch.
  destruct (write_succeeds w) eqn:Hw.
  - unfold writeCommentBodyToFile, bind at 1 2 3 4.
    unfold writeFileSync. unfold write_succeeds in Hw. rewrite Hw.
    rewrite !setOutput_run. reflexivity.
  - unfold bind at 1 2.
    destruct (writeCommentBodyToFile_fails w (finalCommentBody w (vars st))
                st Hw) as [e ->].
    unfold bind, assign, modify. rewrite !setOutput_run. reflexivity.
Qed.

(** When the handler of the first [try] statement does not raise,
    [runCheck] returns: nothing raised later escapes. *)
Lemma runCheck_run (w : World) :
  rejects_nullish w = false ->
  runCheck w initial_state
  = (Returned
       (if jobShouldFail (vars (after_publish w (after_check w)))
        then 1 else 0)%Z,
     after_publish w (after_check w)).
Proof.
  intros Hn. unfold runCheck, bind.
  now rewrite (check_returns w Hn), publish_run.
Qed.

Lemma runCheck_crashes (w : World) :
  rejects_nullish w = true ->
  exists e, runCheck w initial_state = (Raised e, crashed_state).
Proof.
  intros Hn. unfold runCheck, bind.
  destruct (check_crashes w Hn) as [e ->]. eauto.
Qed.

Lemma main_run (w : World) :
  reaches_runCheck w = true ->
  rejects_nullish w = false ->
  main w
  = mkOutcome
      (if jobShouldFail (vars (after_publish w (after_check w)))
       then 1 else 0)%Z
      (after_publish w (after_check w)).
Proof.
  unfold reaches_runCheck, main. intros Hr Hn. rewrite (runCheck_run w Hn).
  destruct (imported w); [discriminate | reflexivity | reflexivity].
Qed.

Lemma main_crashes (w : World) :
  rejects_nullish w = true ->
  main w = mkOutcome 1 crashed_state.
Proof.
  intros Hn. pose proof (rejects_nullish_reaches w Hn) as Hr.
  unfold reaches_runCheck, main in *.
  destruct (runCheck_crashes w Hn) as [e ->].
  destruct (imported w); [discriminate | reflexivity | reflexivity].
Qed.

Lemma write_attempted_true (w : World) :
  write_attempted w = true <->
  reaches_runCheck w = true /\ rejects_nullish w = false.
Proof.
  unfold write_attempted. rewrite andb_true_iff, negb_true_iff. tauto.
Qed.

Lemma main_require_throws (w : World) :
  reaches_runCheck w = false ->
  main w = mkOutcome 1 initial_state.
Proof.
  unfold reaches_runCheck, main.
  destruct (imported w); [reflexivity | discriminate | discriminate].
Qed.

Lemma vars_after_setOutput (w : World) (name value : string) (st : State) :
  vars (after_setOutput w name value st) = vars st.
Proof. reflexivity. Qed.

Lemma jobShouldFail_after_publish (w : World) (st : State) :
  jobShouldFail (vars (after_publish w st))
  = jobShouldFail (vars st) || negb (write_succeeds w).
Proof.
  unfold after_publish. destruct (write_succeeds w); cbn.
  - now rewrite orb_false_r.
  - now rewrite orb_true_r.
Qed.

Lemma counts_after_publish (w : World) (st : State) :
  totalErrorCount (vars (after_publish w st)) = totalErrorCount (vars st)
  /\ totalWarningCount (vars (after_publish w st))
     = totalWarningCount (vars st)
  /\ summaryLine (vars (after_publish w st)) = summaryLine (vars st)
  /\ reportBody (vars (after_publish w st)) = reportBody (vars st)
  /\ engine_calls (after_publish w st) = engine_calls st.
Proof.
  unfold after_publish. destruct (write_succeeds w); cbn; auto.
Qed.

Lemma calls_after_publish (w : World) (st : State) :
  setOutput_calls (after_publish w st)
  = (setOutput_calls st
       ++ (if write_succeeds w then
             [("comment_body_file", bodyFile w);
              ("fallback_comment_body", "");
              ("error_count", count_toString (totalErrorCount (vars st)));
              ("warning_count", count_toString (totalWarningCount (vars st)))]
           else
             [("comment_body_file", "");
              ("fallback_comment_body", fallbackBody w (vars st))]))%list.
Proof.
  unfold after_publish. destruct (write_succeeds w); cbn;
    now rewrite <- !app_assoc.
Qed.

Lemma written_after_publish (w : World) (st : State) :
  written (after_publish w st)
  = if write_succeeds w
    then (bodyFile w, finalCommentBody w (vars st)) :: written st
    else written st.
Proof. unfold after_publish. destruct (write_succeeds w); reflexivity. Qed.

(** With no valid destination nothing reaches the output file. *)
Lemma lines_after_publish_invalid (w : World) (st : State) :
  output_path_valid w = false ->
  output_lines (after_publish w st) = output_lines st.
Proof.
  intros H. unfold after_publish, after_setOutput.
  destruct (write_succeeds w); cbn; rewrite H; cbn;
    now rewrite ?app_nil_r.
Qed.

(** With a valid destination and no I/O error every call lands. *)
Lemma lines_after_publish_valid (w : World) (st : State) :
  output_path_valid w = true ->
  (forall n, append_permitted w n = true) ->
  output_lines (after_publish w st)
  = (output_lines st
       ++ List.map render
            (if write_succeeds w then
               [("comment_body_file", bodyFile w);
                ("fallback_comment_body", "");
                ("error_count", count_toString (totalErrorCount (vars st)));
                ("warning_count",
                  count_toString (totalWarningCount (vars st)))]
             else
               [("comment_body_file", "");
                ("fallback_comment_body", fallbackBody w (vars st))]))%list.
Proof.
  intros Hvalid Hperm. unfold after_publish, after_setOutput.
  destruct (write_succeeds w); cbn -[render]; rewrite Hvalid, !Hperm;
    cbn -[render]; now rewrite <- !app_assoc.
Qed.

(** Whatever the file system does, only lines of the calls made land, in
    the order of the calls. *)
Lemma lines_after_publish_sublist (w : World) (st : State) :
  output_lines st = [] ->
  sublist (output_lines (after_publish w st))
    (List.map render
       (if write_succeeds w then
          [("comment_body_file", bodyFile w);
           ("fallback_comment_body", "");
           ("error_count", count_toString (totalErrorCount (vars st)));
           ("warning_count", count_toString (totalWarningCount (vars st)))]
        else
          [("comment_body_file", "");
           ("fallback_comment_body", fallbackBody w (vars st))])).
Proof.
  intros Hnil. unfold after_publish, after_setOutput.
  destruct (write_succeeds w); cbn -[render]; rewrite Hnil;
    cbn -[render];
    repeat match goal with
      | |- context [if ?b then _ else _] => destruct b
      end;
    cbn -[render];
    repeat first [apply sublist_nil | apply sublist_skip | apply sublist_cons].
Qed.

Lemma after_check_clean (w : World) :
  output_lines (after_check w) = []
  /\ written (after_check w) = []
  /\ setOutput_calls (after_check w) = []
  /\ (engine_calls (after_check w) <= 1)%nat.
Proof.
  destruct (rejects_nullish w) eqn:Hn.
  { rewrite (after_check_crashed w Hn). cbn. auto. }
  destruct (engine_offenses w) as [l|] eqn:H.
  - rewrite (after_check_offenses w l H). cbn. auto.
  - rewrite (after_check_failed w H Hn). cbn.
    destruct (engine_outcome w); auto.
Qed.

Lemma engine_offenses_reaches (w : World) (l : list Offense) :
  engine_offenses w = Some l ->
  reaches_runCheck w = true /\ output_path_valid w = true.
Proof.
  unfold engine_offenses, engine_outcome, reaches_runCheck.
  destruct (output_path_valid w); [|discriminate].
  destruct (imported w); try discriminate. auto.
Qed.

Lemma engine_offenses_none_iff (w : World) :
  engine_offenses w = None <-> fatal_error w.
Proof.
  unfold engine_offenses, engine_outcome, fatal_error.
  destruct (output_path_valid w); [|tauto].
  destruct (imported w) as [|typeof|run] eqn:Himp.
  - tauto.
  - split; [intros _; right; right; left; eauto | reflexivity].
  - destruct (run (themePath w)) as [[l|]|e] eqn:Hrun; split; intros H;
      try discriminate; try reflexivity.
    + destruct H as [H|[H|[[ty H]|(run' & H & Hcase)]]]; try discriminate.
      injection H as <-. rewrite Hrun in Hcase.
      destruct Hcase as [?|[e ?]]; discriminate.
    + right; right; right. exists run. auto.
    + right; right; right. exists run. split; [reflexivity|]. right. eauto.
Qed.

Lemma failOnWarnings_true (w : World) :
  failOnWarnings w = true <-> env w "FAIL_ON_WARNINGS" = Some "true".
Proof.
  unfold failOnWarnings. destruct (env w "FAIL_ON_WARNINGS") as [v|].
  - rewrite String.eqb_eq. split; congruence.
  - split; discriminate.
Qed.

Lemma positive_length {A : Type} (l : list A) :
  (0 <? List.length l)%nat = true <-> (0 < List.length l)%nat.
Proof. apply Nat.ltb_lt. Qed.

(** ** Exit status *)

Lemma exit_code_failing (w : World) :
  failing_condition w <-> exit_code (main w) = 1%Z.
Proof.
  destruct (rejects_nullish w) eqn:Hn.
  { rewrite (main_crashes w Hn). cbn [exit_code].
    split; [reflexivity|].
    intros _. right; right; left.
    now apply engine_offenses_none_iff, nullish_no_offenses. }
  destruct (reaches_runCheck w) eqn:Hr.
  - rewrite (main_run w Hr Hn). cbn [exit_code].
    rewrite jobShouldFail_after_publish.
    destruct (engine_offenses w) as [l|] eqn:Hoff.
    + rewrite (after_check_offenses w l Hoff). cbn [vars jobShouldFail].
      split.
      * intros [(l' & Hl' & Hpos)|[(l' & Hl' & Hpos & Hflag)|[Hfatal|[_ Hw]]]].
        -- rewrite Hoff in Hl'. injection Hl' as <-.
           apply positive_length in Hpos.
           now rewrite Hpos.
        -- rewrite Hoff in Hl'. injection Hl' as <-.
           apply positive_length in Hpos.
           apply failOnWarnings_true in Hflag. rewrite Hpos, Hflag.
           now destruct (0 <? List.length (errorOffenses l))%nat.
        -- apply engine_offenses_none_iff in Hfatal. congruence.
        -- rewrite Hw. now rewrite orb_true_r.
      * intros H.
        destruct (0 <? List.length (errorOffenses l))%nat eqn:He.
        { left. exists l. split; [exact Hoff | now apply positive_length]. }
        destruct (0 <? List.length (warningOffenses l))%nat eqn:Hwarn;
          cbn [andb] in H.
        { destruct (failOnWarnings w) eqn:Hflag.
          - right; left. exists l.
            split; [exact Hoff|]. split; [now apply positive_length|].
            now apply failOnWarnings_true.
          - destruct (write_succeeds w) eqn:Hw; [discriminate|].
            right; right; right. now split. }
        destruct (write_succeeds w) eqn:Hw; [discriminate|].
        right; right; right. now split.
    + rewrite (after_check_failed w Hoff Hn). cbn [vars jobShouldFail orb].
      split; [reflexivity|].
      intros _. right; right; left. now apply engine_offenses_none_iff.
  - rewrite (main_require_throws w Hr). cbn [exit_code].
    split; [reflexivity|].
    intros _. right; right; left. left.
    unfold reaches_runCheck in Hr. now destruct (imported w).
Qed.

Lemma exit_code_binary (w : World) :
  exit_code (main w) = 0%Z \/ exit_code (main w) = 1%Z.
Proof.
  destruct (rejects_nullish w) eqn:Hn.
  { rewrite (main_crashes w Hn). auto. }
  destruct (reaches_runCheck w) eqn:Hr.
  - rewrite (main_run w Hr Hn). cbn [exit_code].
    destruct (jobShouldFail _); auto.
  - rewrite (main_require_throws w Hr). auto.
Qed.

Lemma flag_keeps_engine_offenses (v : option string) (w : World) :
  engine_offenses (with_fail_on_warnings v w) = engine_offenses w.
Proof. reflexivity. Qed.

Lemma flag_keeps_write (v : option string) (w : World) :
  write_succeeds (with_fail_on_warnings v w) = write_succeeds w
  /\ bodyFile (with_fail_on_warnings v w) = bodyFile w.
Proof. split; reflexivity. Qed.

Lemma flag_keeps_body (v : option string) (w : World) (vs : Vars) :
  finalCommentBody (with_fail_on_warnings v w) vs = finalCommentBody w vs.
Proof. reflexivity. Qed.

Lemma flag_read (v : option string) (w : World) :
  failOnWarnings (with_fail_on_warnings v w)
  = match v with Some s => String.eqb s "true" | None => false end.
Proof. reflexivity. Qed.

(** What a run with offenses [l] writes and how it exits, flag aside. *)
Lemma run_with_offenses (w : World) (l : list Offense) :
  engine_offenses w = Some l ->
  write_succeeds w = true ->
  exit_code (main w)
  = (if (0 <? List.length (errorOffenses l))%nat
        || (0 <? List.length (warningOffenses l))%nat && failOnWarnings w
     then 1 else 0)%Z
  /\ written (final (main w))
     = [(bodyFile w,
         reportTitle w ++ LF ++ "**"
           ++ summaryOf (List.length (errorOffenses l))
                (List.length (warningOffenses l))
           ++ "**" ++ LF ++ LF
           ++ reportBodyOf l (workspacePath w) (repoUrl w) (commitSha w)
           ++ viewMoreLink w)].
Proof.
  intros Hoff Hw.
  destruct (engine_offenses_reaches w l Hoff) as [Hr _].
  pose proof (offenses_not_nullish w l Hoff) as Hn.
  rewrite (main_run w Hr Hn). cbn [exit_code final].
  rewrite jobShouldFail_after_publish, written_after_publish, Hw.
  rewrite (after_check_offenses w l Hoff).
  cbn [vars jobShouldFail written negb]. rewrite orb_false_r.
  split; [|reflexivity].
  destruct (0 <? List.length (errorOffenses l))%nat; [reflexivity|].
  cbn [orb].
  now destruct ((0 <? List.length (warningOffenses l))%nat && failOnWarnings w).
Qed.

(** C2.  The exit status is 0 exactly when no failing condition holds and
    1 otherwise, the failing conditions being: an error was found; a
    warning was found and [FAIL_ON_WARNINGS] is the literal [true]; a fatal
    setup or processing error; the report file could not be written.  A
    run that finds warnings only, with nothing else failing, exits with 0
    when the flag is unset and with 1 when it is [true], and writes the
    same report in both cases. *)
Theorem exit_status :
  (forall w : World,
      (exit_code (main w) = 0%Z <-> ~ failing_condition w)
      /\ (exit_code (main w) = 1%Z <-> failing_condition w))
  /\ (forall (w : World) (l : list Offense),
         engine_offenses w = Some l ->
         errorOffenses l = [] ->
         warningOffenses l <> [] ->
         write_succeeds w = true ->
         exit_code (main (with_fail_on_warnings None w)) = 0%Z
         /\ exit_code (main (with_fail_on_warnings (Some "true") w)) = 1%Z
         /\ written (final (main (with_fail_on_warnings None w)))
            = written (final (main (with_fail_on_warnings (Some "true") w)))
         /\ exists body,
              written (final (main (with_fail_on_warnings None w)))
              = [(bodyFile w, body)]).
Proof.
  split.
  - intros w. split; [|symmetry; apply exit_code_failing].
    rewrite exit_code_failing.
    destruct (exit_code_binary w) as [H|H]; rewrite H; split; intros;
      try discriminate; try reflexivity.
    contradiction.
  - intros w l Hoff Herr Hwarn Hw.
    destruct (run_with_offenses (with_fail_on_warnings None w) l)
      as [Hexit0 Hbody0]; [assumption | assumption |].
    destruct (run_with_offenses (with_fail_on_warnings (Some "true") w) l)
      as [Hexit1 Hbody1]; [assumption | assumption |].
    rewrite Hexit0, Hexit1, Hbody0, Hbody1, !flag_read, Herr.
    assert (Hpos : (0 <? List.length (warningOffenses l))%nat = true).
    { apply positive_length. destruct (warningOffenses l); [congruence|].
      simpl. lia. }
    rewrite Hpos. cbn.
    repeat split. eexists. reflexivity.
Qed.

Lemma exit_status_witness :
  exit_code (main (with_fail_on_warnings None Samples.warning_only)) = 0%Z
  /\ exit_code (main (with_fail_on_warnings (Some "true") Samples.warning_only))
     = 1%Z.
Proof.
  destruct (proj2 exit_status Samples.warning_only [Samples.footer_warning])
    as (H0 & H1 & _).
  - reflexivity.
  - reflexivity.
  - discriminate.
  - reflexivity.
  - split; assumption.
Defined.

(** ** Classification *)

Lemma errorOffenses_sublist (l : list Offense) : sublist (errorOffenses l) l.
Proof.
  induction l as [|o l IH]; cbn; [constructor|].
  destruct (severity o =? 0)%Z; now constructor.
Qed.

Lemma warningOffenses_sublist (l : list Offense) :
  sublist (warningOffenses l) l.
Proof.
  induction l as [|o l IH]; cbn; [constructor|].
  destruct (severity o =? 1)%Z; now constructor.
Qed.

Lemma classes_permutation (l : list Offense) :
  Permutation (errorOffenses l ++ warningOffenses l ++ ignoredOffenses l)%list l.
Proof.
  induction l as [|o l IH]; cbn; [constructor|].
  destruct (Z.eqb_spec (severity o) 0) as [H0|H0].
  - rewrite H0. cbn. now constructor.
  - destruct (Z.eqb_spec (severity o) 1) as [H1|H1]; cbn.
    + rewrite <- Permutation_middle. now constructor.
    + rewrite app_assoc, <- Permutation_middle, <- app_assoc.
      now constructor.
Qed.

(** C1.  The errors are exactly the offenses of severity 0 and the
    warnings exactly those of severity 1, each class in the order of the
    engine's list; no offense is in both classes; the two classes and the
    offenses of any other severity together are the engine's list, so the
    latter are in neither class and in neither count; the counts of the
    run and the emitted [error_count] and [warning_count] are the lengths
    of the two classes. *)
Theorem classification_partitions (allOffenses : list Offense) :
  let errors := errorOffenses allOffenses in
  let warnings := warningOffenses allOffenses in
  (forall o, In o errors <-> In o allOffenses /\ severity o = 0%Z)
  /\ (forall o, In o warnings <-> In o allOffenses /\ severity o = 1%Z)
  /\ sublist errors allOffenses
  /\ sublist warnings allOffenses
  /\ (forall o, ~ (In o errors /\ In o warnings))
  /\ (forall o, severity o <> 0%Z -> severity o <> 1%Z ->
                ~ In o errors /\ ~ In o warnings)
  /\ Permutation (errors ++ warnings ++ ignoredOffenses allOffenses)%list
       allOffenses
  /\ (List.length errors + List.length warnings
        + List.length (ignoredOffenses allOffenses)
      = List.length allOffenses)%nat
  /\ (forall w : World,
         engine_offenses w = Some allOffenses ->
         totalErrorCount (vars (final (main w))) = List.length errors
         /\ totalWarningCount (vars (final (main w))) = List.length warnings
         /\ (write_succeeds w = true ->
             setOutput_calls (final (main w))
             = [("comment_body_file", bodyFile w);
                ("fallback_comment_body", "");
                ("error_count", count_toString (List.length errors));
                ("warning_count", count_toString (List.length warnings))])).
Proof.
  intros errors warnings.
  assert (Herr : forall o, In o errors <-> In o allOffenses /\ severity o = 0%Z).
  { intros o. unfold errors, errorOffenses. rewrite filter_In.
    now rewrite Z.eqb_eq. }
  assert (Hwarn : forall o,
             In o warnings <-> In o allOffenses /\ severity o = 1%Z).
  { intros o. unfold warnings, warningOffenses. rewrite filter_In.
    now rewrite Z.eqb_eq. }
  pose proof (classes_permutation allOffenses) as Hperm.
  split; [exact Herr|]. split; [exact Hwarn|].
  split; [apply errorOffenses_sublist|].
  split; [apply warningOffenses_sublist|].
  split; [|split; [|split; [exact Hperm|split]]].
  - intros o [He Hw]. apply Herr in He as [_ He]. apply Hwarn in Hw as [_ Hw].
    congruence.
  - intros o H0 H1. split.
    + intros He. apply Herr in He as [_ He]. congruence.
    + intros Hw. apply Hwarn in Hw as [_ Hw]. congruence.
  - apply Permutation_length in Hperm. rewrite !length_app in Hperm.
    fold errors warnings in Hperm. lia.
  - intros w H.
    destruct (engine_offenses_reaches w allOffenses H) as [Hr _].
    pose proof (offenses_not_nullish w allOffenses H) as Hn.
    rewrite (main_run w Hr Hn). cbn [final].
    destruct (counts_after_publish w (after_check w)) as (-> & -> & _).
    rewrite calls_after_publish.
    rewrite (after_check_offenses w allOffenses H).
    cbn [vars totalErrorCount totalWarningCount setOutput_calls app].
    split; [reflexivity|]. split; [reflexivity|].
    now intros ->.
Qed.

Lemma classification_partitions_witness :
  totalErrorCount (vars (final (main Samples.mixed))) = 1%nat
  /\ totalWarningCount (vars (final (main Samples.mixed))) = 1%nat.
Proof.
  destruct (classification_partitions
              [Samples.header_error; Samples.info; Samples.footer_warning])
    as (_ & _ & _ & _ & _ & _ & _ & _ & Hrun).
  destruct (Hrun Samples.mixed eq_refl) as (He & Hw & _).
  split; [exact He | exact Hw].
Defined.

(** ** The report file name *)




(** ** Publishing *)

Lemma viewMoreLink_cases (w : World) :
  (viewMoreLink w = "" <-> repoUrl w = "" \/ runId w = "")
  /\ (repoUrl w <> "" -> runId w <> "" ->
      viewMoreLink w
      = LF ++ LF ++ "[View Full Action Run Details](" ++ repoUrl w
          ++ "/actions/runs/" ++ runId w ++ ")").
Proof.
  unfold viewMoreLink, actionRunUrl.
  destruct (repoUrl w) as [|c repo]; cbn [Js.truthy andb].
  - split; [split; auto | congruence].
  - destruct (runId w) as [|d run]; cbn [Js.truthy andb append].
    + split; [split; auto | congruence].
    + split.
      * unfold LF. cbn [append].
        split; [discriminate | intros [?|?]; discriminate].
      * intros _ _. now string_assoc.
Qed.

Lemma fallbackBody_nonempty (w : World) (v : Vars) : fallbackBody w v <> "".
Proof. unfold fallbackBody, reportTitle. discriminate. Qed.

(** What reaches the output file when the report file cannot be written:
    at most the two fallback lines, in this order. *)
Lemma lines_after_failed_publish (w : World) (st : State) :
  write_succeeds w = false ->
  output_lines st = [] ->
  exists b1 b2 : bool,
    output_lines (after_publish w st)
    = ((if b1 then [render ("comment_body_file", "")] else [])
         ++ (if b2 then [render ("fallback_comment_body",
                                  fallbackBody w (vars st))] else []))%list.
Proof.
  intros Hw Hnil. unfold after_publish. rewrite Hw.
  unfold with_vars, after_setOutput. cbn -[render]. rewrite Hnil.
  eexists _, _. reflexivity.
Qed.

Lemma step_output_absent (name : string) (lines : list string) :
  (forall l, In l lines -> Js.startsWith l (name ++ "=") = false) ->
  step_output name lines = None.
Proof.
  induction lines as [|l rest IH]; intros H; [reflexivity|].
  cbn [step_output]. rewrite IH by (intros; apply H; now right).
  now rewrite (H l) by now left.
Qed.

(** C4.  When the run gets as far as writing the report file and the
    write fails, [runCheck] still returns: it calls [setOutput] with an
    empty [comment_body_file] and with a non-empty [fallback_comment_body]
    made of the title, the summary line, the notice that the report file
    could not be written and the run link when there is one; and the exit
    status is 1 whatever the counts are. *)
Theorem write_failure_falls_back (w : World) :
  write_attempted w = true ->
  write_succeeds w = false ->
  let st := final (main w) in
  let fallback :=
    reportTitle w ++ LF ++ "**" ++ summaryLine (vars st) ++ "**" ++ LF ++ LF
      ++ warning_sign ++ " Error: Could not write report file."
      ++ viewMoreLink w in
  runCheck w initial_state = (Returned 1%Z, st)
  /\ exit_code (main w) = 1%Z
  /\ written st = []
  /\ setOutput_calls st
     = [("comment_body_file", ""); ("fallback_comment_body", fallback)]
  /\ fallback <> ""
  /\ (viewMoreLink w = "" <-> repoUrl w = "" \/ runId w = "")
  /\ (repoUrl w <> "" -> runId w <> "" ->
      viewMoreLink w
      = LF ++ LF ++ "[View Full Action Run Details](" ++ repoUrl w
          ++ "/actions/runs/" ++ runId w ++ ")")
  /\ (output_path_valid w = true ->
      (forall n, append_permitted w n = true) ->
      output_lines st
      = ["comment_body_file=" ++ LF;
         "fallback_comment_body=" ++ escapeValue fallback ++ LF]).
Proof.
  intros Ha Hw st fallback.
  apply write_attempted_true in Ha as [Hr Hn].
  destruct (after_check_clean w) as (Hlines & Hwritten & Hcalls & _).
  assert (Hfail : jobShouldFail (vars (after_publish w (after_check w))) = true).
  { rewrite jobShouldFail_after_publish, Hw. now rewrite orb_true_r. }
  assert (Hst : st = after_publish w (after_check w)).
  { subst st. now rewrite (main_run w Hr Hn). }
  assert (Hfb : fallback = fallbackBody w (vars (after_check w))).
  { subst fallback. rewrite Hst.
    destruct (counts_after_publish w (after_check w)) as (_ & _ & -> & _).
    reflexivity. }
  split; [|split; [|split; [|split; [|split; [|split; [|split]]]]]].
  - rewrite (runCheck_run w Hn), Hfail. now rewrite Hst.
  - rewrite (main_run w Hr Hn). cbn [exit_code]. now rewrite Hfail.
  - rewrite Hst, written_after_publish, Hw. exact Hwritten.
  - rewrite Hst, calls_after_publish, Hw, Hcalls, Hfb. reflexivity.
  - rewrite Hfb. apply fallbackBody_nonempty.
  - apply viewMoreLink_cases.
  - apply viewMoreLink_cases.
  - intros Hvalid Hperm.
    rewrite Hst, (lines_after_publish_valid w _ Hvalid Hperm), Hw, Hlines, Hfb.
    reflexivity.
Qed.

Lemma write_failure_falls_back_witness :
  exit_code (main Samples.read_only_temp) = 1%Z
  /\ written (final (main Samples.read_only_temp)) = [].
Proof.
  destruct (write_failure_falls_back Samples.read_only_temp eq_refl eq_refl)
    as (_ & Hexit & Hwritten & _).
  split; [exact Hexit | exact Hwritten].
Defined.

(** C10.  When the run gets as far as writing the report file and the
    write fails, [setOutput] is called for [comment_body_file] and
    [fallback_comment_body] only: neither [error_count] nor
    [warning_count] is emitted, and no line of the output file sets
    them. *)
Theorem write_failure_skips_counts (w : World) :
  write_attempted w = true ->
  write_succeeds w = false ->
  let st := final (main w) in
  List.map fst (setOutput_calls st)
  = ["comment_body_file"; "fallback_comment_body"]
  /\ In ("comment_body_file", "") (setOutput_calls st)
  /\ (forall v, ~ In ("error_count", v) (setOutput_calls st))
  /\ (forall v, ~ In ("warning_count", v) (setOutput_calls st))
  /\ (forall l, In l (output_lines st) ->
                Js.startsWith l "error_count=" = false
                /\ Js.startsWith l "warning_count=" = false)
  /\ step_output "error_count" (output_lines st) = None
  /\ step_output "warning_count" (output_lines st) = None.
Proof.
  intros Ha Hw st.
  apply write_attempted_true in Ha as [Hr Hn].
  destruct (after_check_clean w) as (Hlines & _ & Hcalls & _).
  assert (Hst : st = after_publish w (after_check w)).
  { subst st. now rewrite (main_run w Hr Hn). }
  assert (Hc : setOutput_calls st
               = [("comment_body_file", "");
                  ("fallback_comment_body",
                    fallbackBody w (vars (after_check w)))]).
  { now rewrite Hst, calls_after_publish, Hw, Hcalls. }
  assert (Hl : forall l, In l (output_lines st) ->
                 Js.startsWith l "error_count=" = false
                 /\ Js.startsWith l "warning_count=" = false).
  { destruct (lines_after_failed_publish w _ Hw Hlines) as (b1 & b2 & Heq).
    rewrite Hst, Heq. intros l Hin.
    apply in_app_or in Hin as [Hin|Hin];
      [destruct b1 | destruct b2]; cbn [In] in Hin; try contradiction;
      destruct Hin as [<-|[]]; split; reflexivity. }
  rewrite Hc.
  split; [reflexivity|]. split; [now left|].
  split; [intros v [H|[H|[]]]; discriminate|].
  split; [intros v [H|[H|[]]]; discriminate|].
  split; [exact Hl|].
  split; apply step_output_absent; intros l Hin; now apply Hl.
Qed.

Lemma write_failure_skips_counts_witness :
  List.map fst (setOutput_calls (final (main Samples.read_only_temp)))
  = ["comment_body_file"; "fallback_comment_body"].
Proof.
  exact (proj1 (write_failure_skips_counts Samples.read_only_temp
                  eq_refl eq_refl)).
Defined.

(** ** Engine failures and setup errors *)




(** C5, where it fails.  When the engine rejects with [null] or
    [undefined], the handler that is to report the error raises itself on
    reading [error.message]: [runCheck] ends there, after one call of the
    engine and with the summary assigned, but with no report body, no
    report file, no [setOutput] call and no line in the output file; the
    exit status is 1. *)
Theorem nullish_rejection_crashes
    (w : World) (run : string -> EngineOutcome) (v : Nullish) :
  output_path_valid w = true ->
  imported w = EngineFunction run ->
  run (themePath w) = Rejects (ThrownNullish v) ->
  let st := final (main w) in
  (exists e, runCheck w initial_state = (Raised e, st))
  /\ exit_code (main w) = 1%Z
  /\ engine_calls st = 1%nat
  /\ summaryLine (vars st) = "Error: Failed to run theme check script."
  /\ reportBody (vars st) = ""
  /\ setOutput_calls st = []
  /\ written st = []
  /\ output_lines st = [].
Proof.
  intros Hvalid Himp Hrun st.
  assert (Hn : rejects_nullish w = true)
    by (apply rejects_nullish_true; eauto).
  subst st. rewrite (main_crashes w Hn). cbn [final exit_code].
  split; [exact (runCheck_crashes w Hn)|].
  repeat split.
Qed.

Lemma nullish_rejection_crashes_witness :
  exit_code (main MoreSamples.engine_rejects_undefined) = 1%Z
  /\ setOutput_calls (final (main MoreSamples.engine_rejects_undefined)) = []
  /\ written (final (main MoreSamples.engine_rejects_undefined)) = [].
Proof.
  destruct (nullish_rejection_crashes MoreSamples.engine_rejects_undefined
              (fun _ => Rejects (ThrownNullish Undefined)) Undefined
              eq_refl eq_refl eq_refl)
    as (_ & Hexit & _ & _ & _ & Hcalls & Hwritten & _).
  split; [exact Hexit|]. split; [exact Hcalls | exact Hwritten].
Defined.

Lemma output_path_invalid (w : World) :
  env w "GITHUB_OUTPUT" = None
  \/ env w "GITHUB_OUTPUT" = Some ""
  \/ (exists p, env w "GITHUB_OUTPUT" = Some p
                /\ existsSync w (NodePath.dirname p) = false) ->
  output_path_valid w = false.
Proof.
  unfold output_path_valid, outputFilePath.
  intros [->|[->|(p & -> & Hdir)]]; try reflexivity.
  rewrite Hdir. apply andb_false_r.
Qed.

(** C6.  With the output destination unset, empty, or in a directory that
    does not exist, the exit status is 1, the engine is never called,
    nothing is written to the output file, and the comment step is handed
    neither a report file nor a fallback body. *)
Theorem no_output_destination (w : World) :
  env w "GITHUB_OUTPUT" = None
  \/ env w "GITHUB_OUTPUT" = Some ""
  \/ (exists p, env w "GITHUB_OUTPUT" = Some p
                /\ existsSync w (NodePath.dirname p) = false) ->
  exit_code (main w) = 1%Z
  /\ engine_calls (final (main w)) = 0%nat
  /\ output_lines (final (main w)) = []
  /\ report_posted (final (main w)) = false.
Proof.
  intros Hdest. apply output_path_invalid in Hdest.
  assert (Hgoal : exit_code (main w) = 1%Z
                  /\ engine_calls (final (main w)) = 0%nat
                  /\ output_lines (final (main w)) = []).
  { destruct (reaches_runCheck w) eqn:Hr.
    - assert (Hout : engine_outcome w = None)
        by (unfold engine_outcome; now rewrite Hdest).
      assert (Hoff : engine_offenses w = None)
        by (unfold engine_offenses; now rewrite Hout).
      pose proof (invalid_not_nullish w Hdest) as Hn.
      pose proof (after_check_failed w Hoff Hn) as Hcheck.
      rewrite Hout in Hcheck.
      rewrite (main_run w Hr Hn). cbn [exit_code final].
      rewrite jobShouldFail_after_publish.
      destruct (counts_after_publish w (after_check w))
        as (_ & _ & _ & _ & ->).
      rewrite (lines_after_publish_invalid w _ Hdest), Hcheck.
      auto.
    - rewrite (main_require_throws w Hr). auto. }
  destruct Hgoal as (Hexit & Hcalls & Hlines).
  repeat split; try assumption.
  unfold report_posted. now rewrite Hlines.
Qed.

Lemma no_output_destination_witness :
  exit_code (main Samples.no_output) = 1%Z
  /\ engine_calls (final (main Samples.no_output)) = 0%nat
  /\ output_lines (final (main Samples.no_output)) = []
  /\ report_posted (final (main Samples.no_output)) = false.
Proof.
  exact (no_output_destination Samples.no_output (or_introl eq_refl)).
Defined.

(** A setup error does not stop the script at once: it still goes through
    the publishing steps and, the temporary directory permitting, leaves the
    degraded report in a file that no output names. *)
Lemma setup_error_still_writes_report (w : World) :
  output_path_valid w = false ->
  reaches_runCheck w = true ->
  write_succeeds w = true ->
  written (final (main w))
  = [(bodyFile w,
      reportTitle w ++ LF ++ "**Error: Failed to run theme check script.**"
        ++ LF ++ LF
        ++ script_failed_body
             (Error ("GITHUB_OUTPUT path invalid or directory does not exist: "
                       ++ outputFilePath_toString w))
        ++ viewMoreLink w)].
Proof.
  intros Hdest Hr Hw.
  assert (Hoff : engine_offenses w = None)
    by (unfold engine_offenses, engine_outcome; now rewrite Hdest).
  pose proof (invalid_not_nullish w Hdest) as Hn.
  rewrite (main_run w Hr Hn). cbn [final].
  rewrite written_after_publish, Hw, (after_check_failed w Hoff Hn).
  unfold finalCommentBody, setup_error. rewrite Hdest.
  cbn [vars written summaryLine reportBody negb].
  now string_assoc.
Qed.

(** * Further properties *)

(** ** Escaping of output values *)

Lemma replaceAll_app (c : ascii) (r a b : string) :
  Js.replaceAll c r (a ++ b) = Js.replaceAll c r a ++ Js.replaceAll c r b.
Proof.
  induction a as [|x a IH]; [reflexivity|].
  cbn [append Js.replaceAll]. now rewrite IH, append_assoc.
Qed.

Lemma escapeValue_cons (c : ascii) (s : string) :
  escapeValue (String c s) = escapeChar c ++ escapeValue s.
Proof.
  unfold escapeValue, escapeChar. cbn [Js.replaceAll].
  rewrite !replaceAll_app.
  destruct (Ascii.eqb c "%") eqn:Hpct; [reflexivity|].
  cbn [Js.replaceAll append]. rewrite replaceAll_app.
  destruct (Ascii.eqb c (ascii_of_nat 10)) eqn:Hlf; [reflexivity|].
  cbn [Js.replaceAll append].
  destruct (Ascii.eqb c (ascii_of_nat 13)); reflexivity.
Qed.

Lemma escapeValue_app (a b : string) :
  escapeValue (a ++ b) = escapeValue a ++ escapeValue b.
Proof.
  induction a as [|c a IH]; [reflexivity|].
  cbn [append]. now rewrite !escapeValue_cons, IH, append_assoc.
Qed.

(** X1.  The three replacements of [setOutput] never work on each other's
    output: the escaped value is the concatenation of the escapes of the
    characters, where [%] gives [%25], a line feed [%0A], a carriage
    return [%0D] and any other character itself. *)
Theorem escapeValue_charwise :
  escapeValue "" = ""
  /\ (forall (c : ascii) (s : string),
         escapeValue (String c s) = escapeChar c ++ escapeValue s)
  /\ (forall a b : string,
         escapeValue (a ++ b) = escapeValue a ++ escapeValue b)
  /\ (forall c : ascii,
         c <> "%"%char -> c <> ascii_of_nat 10 -> c <> ascii_of_nat 13 ->
         escapeValue (String c "") = String c "")
  /\ escapeValue "%" = "%25"
  /\ escapeValue LF = "%0A"
  /\ escapeValue CR = "%0D".
Proof.
  split; [reflexivity|]. split; [exact escapeValue_cons|].
  split; [exact escapeValue_app|].
  split; [|repeat split; reflexivity].
  intros c Hpct Hlf Hcr. rewrite escapeValue_cons. unfold escapeChar.
  apply Ascii.eqb_neq in Hpct, Hlf, Hcr. now rewrite Hpct, Hlf, Hcr.
Qed.

Lemma escapeValue_charwise_witness :
  escapeValue (String "a" "") = String "a" "".
Proof.
  apply (proj1 (proj2 (proj2 (proj2 escapeValue_charwise))));
    intros H; discriminate H.
Defined.

Lemma has_char_app (c : ascii) (a b : string) :
  has_char c (a ++ b) = has_char c a || has_char c b.
Proof.
  induction a as [|x a IH]; [reflexivity|].
  cbn [append has_char]. now rewrite IH, orb_assoc.
Qed.

Lemma escapeChar_clean (c : ascii) :
  has_char (ascii_of_nat 10) (escapeChar c) = false
  /\ has_char (ascii_of_nat 13) (escapeChar c) = false.
Proof.
  unfold escapeChar.
  destruct (Ascii.eqb c "%"); [split; reflexivity|].
  destruct (Ascii.eqb c (ascii_of_nat 10)) eqn:Hlf; [split; reflexivity|].
  destruct (Ascii.eqb c (ascii_of_nat 13)) eqn:Hcr; [split; reflexivity|].
  cbn [has_char]. now rewrite Hlf, Hcr.
Qed.

(** X2.  An escaped value holds no line feed and no carriage return, so
    the line [setOutput] appends for a name without line feed has its only
    line feed at its end. *)
Theorem escaped_value_on_one_line (name value : string) :
  has_char (ascii_of_nat 10) (escapeValue value) = false
  /\ has_char (ascii_of_nat 13) (escapeValue value) = false
  /\ (has_char (ascii_of_nat 10) name = false ->
      exists body, render (name, value) = body ++ LF
                   /\ has_char (ascii_of_nat 10) body = false).
Proof.
  assert (H : has_char (ascii_of_nat 10) (escapeValue value) = false
              /\ has_char (ascii_of_nat 13) (escapeValue value) = false).
  { induction value as [|c v [IH1 IH2]]; [split; reflexivity|].
    rewrite escapeValue_cons, !has_char_app, IH1, IH2.
    destruct (escapeChar_clean c) as [-> ->]. split; reflexivity. }
  destruct H as [H1 H2]. split; [exact H1|]. split; [exact H2|].
  intros Hname. exists (name ++ "=" ++ escapeValue value). split.
  - unfold render. cbn [fst snd]. now rewrite !append_assoc.
  - rewrite !has_char_app, Hname, H1. reflexivity.
Qed.

Lemma escaped_value_on_one_line_witness :
  exists body,
    render ("fallback_comment_body", "a" ++ LF ++ "b") = body ++ LF
    /\ has_char (ascii_of_nat 10) body = false.
Proof.
  exact (proj2 (proj2 (escaped_value_on_one_line "fallback_comment_body"
                         ("a" ++ LF ++ "b"))) eq_refl).
Defined.

Lemma unescape_escape (value : string) :
  unescapeValue (escapeValue value) = value.
Proof.
  induction value as [|c v IH]; [reflexivity|].
  rewrite escapeValue_cons. unfold escapeChar.
  destruct (Ascii.eqb c "%") eqn:Hpct.
  { apply Ascii.eqb_eq in Hpct. subst c. cbn. now rewrite IH. }
  destruct (Ascii.eqb c (ascii_of_nat 10)) eqn:Hlf.
  { apply Ascii.eqb_eq in Hlf. subst c. cbn. now rewrite IH. }
  destruct (Ascii.eqb c (ascii_of_nat 13)) eqn:Hcr.
  { apply Ascii.eqb_eq in Hcr. subst c. cbn. now rewrite IH. }
  cbn [append unescapeValue]. now rewrite Hpct, IH.
Qed.

(** X3.  Escaping loses nothing: the value can be read back from its
    escaped form, so two values with the same escaped form are equal. *)
Theorem escapeValue_injective :
  (forall value : string, unescapeValue (escapeValue value) = value)
  /\ (forall a b : string, escapeValue a = escapeValue b -> a = b).
Proof.
  split; [exact unescape_escape|].
  intros a b H. rewrite <- (unescape_escape a), <- (unescape_escape b).
  now rewrite H.
Qed.

Lemma escapeValue_injective_witness :
  unescapeValue (escapeValue ("50%" ++ LF ++ "%0A")) = "50%" ++ LF ++ "%0A".
Proof. exact (proj1 escapeValue_injective ("50%" ++ LF ++ "%0A")). Defined.

(** ** [setOutput] and the output file *)

(** X4.  [setOutput] never raises, whatever the file system does.  It
    leaves the locals, the written files and the engine alone, keeps the
    lines already in the output file and appends at most the line
    [name=escaped value]; with the destination unset or empty it does not
    even try to append. *)
Theorem setOutput_best_effort (w : World) (name value : string) (st : State) :
  exists st',
    setOutput w name value st = (Returned tt, st')
    /\ vars st' = vars st
    /\ written st' = written st
    /\ engine_calls st' = engine_calls st
    /\ setOutput_calls st' = (setOutput_calls st ++ [(name, value)])%list
    /\ (output_lines st' = output_lines st
        \/ output_lines st'
           = (output_lines st
                ++ [(name ++ "=" ++ escapeValue value ++ LF)%string])%list)
    /\ (env w "GITHUB_OUTPUT" = None \/ env w "GITHUB_OUTPUT" = Some "" ->
        output_lines st' = output_lines st
        /\ append_attempts st' = append_attempts st).
Proof.
  exists (after_setOutput w name value st).
  split; [apply setOutput_run|].
  unfold after_setOutput. cbn [vars written engine_calls setOutput_calls
                                 output_lines append_attempts].
  repeat (split; [reflexivity|]).
  split.
  - destruct (output_path_valid w && append_permitted w (append_attempts st));
      [right; reflexivity | left; apply app_nil_r].
  - intros Hdest.
    assert (Hvalid : output_path_valid w = false)
      by (apply output_path_invalid; tauto).
    assert (Hattempt : attempts_append w = false)
      by (unfold attempts_append, outputFilePath;
          destruct Hdest as [->| ->]; reflexivity).
    rewrite Hvalid, Hattempt. cbn [andb]. split; [apply app_nil_r | reflexivity].
Qed.

Lemma setOutput_best_effort_witness :
  exists st',
    setOutput Samples.no_output "error_count" "3" initial_state
    = (Returned tt, st')
    /\ output_lines st' = [].
Proof.
  destruct (setOutput_best_effort Samples.no_output "error_count" "3"
              initial_state)
    as (st' & Hrun & _ & _ & _ & _ & _ & Hunset).
  exists st'. split; [exact Hrun|].
  exact (proj1 (Hunset (or_introl eq_refl))).
Defined.

Lemma after_check_attempts (w : World) : append_attempts (after_check w) = 0%nat.
Proof.
  destruct (rejects_nullish w) eqn:Hn.
  { now rewrite (after_check_crashed w Hn). }
  destruct (engine_offenses w) as [l|] eqn:H.
  - now rewrite (after_check_offenses w l H).
  - now rewrite (after_check_failed w H Hn).
Qed.

Lemma lines_after_publish_landed (w : World) (st : State) :
  output_path_valid w = true ->
  output_lines (after_publish w st)
  = (output_lines st
       ++ lines_landed w (append_attempts st)
            (if write_succeeds w then
               [("comment_body_file", bodyFile w);
                ("fallback_comment_body", "");
                ("error_count", count_toString (totalErrorCount (vars st)));
                ("warning_count",
                  count_toString (totalWarningCount (vars st)))]
             else
               [("comment_body_file", "");
                ("fallback_comment_body", fallbackBody w (vars st))]))%list.
Proof.
  intros Hvalid. pose proof (output_path_valid_attempts w Hvalid) as Hatt.
  unfold after_publish, after_setOutput.
  destruct (write_succeeds w); cbn -[render]; rewrite Hvalid, Hatt;
    cbn -[render]; rewrite ?app_nil_r, <- ?app_assoc; reflexivity.
Qed.

(** X5.  Emission is best effort, output by output: with a valid
    destination the line of the n-th [setOutput] call of the run is in the
    output file exactly when the n-th append met no I/O error, and an
    append that failed keeps no later line out; with no valid destination
    the output file gets nothing. *)
Theorem output_file_lines (w : World) :
  output_lines (final (main w))
  = if output_path_valid w
    then lines_landed w 0 (setOutput_calls (final (main w)))
    else [].
Proof.
  destruct (rejects_nullish w) eqn:Hn.
  { rewrite (main_crashes w Hn). cbn.
    now destruct (output_path_valid w). }
  destruct (reaches_runCheck w) eqn:Hr.
  - rewrite (main_run w Hr Hn). cbn [final].
    destruct (after_check_clean w) as (Hlines & _ & Hcalls & _).
    destruct (output_path_valid w) eqn:Hvalid.
    + rewrite (lines_after_publish_landed w _ Hvalid), calls_after_publish.
      now rewrite Hlines, Hcalls, after_check_attempts.
    + now rewrite (lines_after_publish_invalid w _ Hvalid).
  - rewrite (main_require_throws w Hr). cbn.
    now destruct (output_path_valid w).
Qed.

Lemma output_file_lines_witness :
  output_lines (final (main MoreSamples.flaky_output))
  = ["fallback_comment_body=" ++ LF; "warning_count=0" ++ LF].
Proof.
  rewrite (output_file_lines MoreSamples.flaky_output). reflexivity.
Defined.

(** X6.  What happens to the appends decides nothing else: two runs that
    differ only in which appends to the output file fail exit with the
    same status, make the same [setOutput] calls, write the same report
    file and call the engine as often. *)
Theorem append_failures_not_fatal (w : World) (f : nat -> bool) :
  exit_code (main (with_append_permitted f w)) = exit_code (main w)
  /\ vars (final (main (with_append_permitted f w))) = vars (final (main w))
  /\ setOutput_calls (final (main (with_append_permitted f w)))
     = setOutput_calls (final (main w))
  /\ written (final (main (with_append_permitted f w)))
     = written (final (main w))
  /\ engine_calls (final (main (with_append_permitted f w)))
     = engine_calls (final (main w)).
Proof.
  assert (Hcheck : after_check (with_append_permitted f w) = after_check w)
    by reflexivity.
  assert (Hw : write_succeeds (with_append_permitted f w) = write_succeeds w)
    by reflexivity.
  destruct (rejects_nullish w) eqn:Hn.
  { assert (Hn' : rejects_nullish (with_append_permitted f w) = true)
      by exact Hn.
    rewrite (main_crashes w Hn), (main_crashes _ Hn'). repeat split. }
  assert (Hn' : rejects_nullish (with_append_permitted f w) = false)
    by exact Hn.
  destruct (reaches_runCheck w) eqn:Hr.
  - assert (Hr' : reaches_runCheck (with_append_permitted f w) = true)
      by exact Hr.
    rewrite (main_run w Hr Hn), (main_run _ Hr' Hn'). cbn [exit_code final].
    rewrite !jobShouldFail_after_publish, !calls_after_publish,
      !written_after_publish, Hcheck, Hw.
    destruct (counts_after_publish (with_append_permitted f w) (after_check w))
      as (_ & _ & _ & _ & ->).
    destruct (counts_after_publish w (after_check w)) as (_ & _ & _ & _ & ->).
    repeat split.
    unfold after_publish. rewrite Hw.
    destruct (write_succeeds w); reflexivity.
  - assert (Hr' : reaches_runCheck (with_append_permitted f w) = false)
      by exact Hr.
    rewrite (main_require_throws w Hr), (main_require_throws _ Hr').
    repeat split.
Qed.

Lemma append_failures_not_fatal_witness :
  exit_code (main (with_append_permitted (fun _ => false) Samples.warning_only))
  = exit_code (main Samples.warning_only).
Proof.
  exact (proj1 (append_failures_not_fatal Samples.warning_only
                  (fun _ => false))).
Defined.

(** ** The shape of every run *)



(** X8.  The engine is called at most once in a run, and it is called
    exactly when the output destination is valid and the imported
    [themeCheckRun] is a function: neither a setup error nor a failure to
    publish leads to a call or to a second one. *)
Theorem engine_called_at_most_once (w : World) :
  (engine_calls (final (main w)) <= 1)%nat
  /\ (engine_calls (final (main w)) = 1%nat <->
      output_path_valid w = true
      /\ exists run, imported w = EngineFunction run).
Proof.
  assert (H : engine_calls (final (main w))
              = match engine_outcome w with Some _ => 1 | None => 0 end%nat).
  { destruct (rejects_nullish w) eqn:Hn.
    { rewrite (main_crashes w Hn). cbn.
      unfold rejects_nullish in Hn. now destruct (engine_outcome w). }
    destruct (reaches_runCheck w) eqn:Hr.
    - rewrite (main_run w Hr Hn). cbn [final].
      destruct (counts_after_publish w (after_check w))
        as (_ & _ & _ & _ & ->).
      destruct (engine_offenses w) as [l|] eqn:Hoff.
      + rewrite (after_check_offenses w l Hoff). cbn.
        unfold engine_offenses in Hoff.
        now destruct (engine_outcome w).
      + now rewrite (after_check_failed w Hoff Hn).
    - rewrite (main_require_throws w Hr). cbn.
      unfold engine_outcome, reaches_runCheck in *.
      destruct (imported w); try discriminate.
      now destruct (output_path_valid w). }
  rewrite H. unfold engine_outcome.
  destruct (output_path_valid w).
  - destruct (imported w) as [|typeof|run].
    + split; [lia|]. split; [discriminate | intros [_ [run Hrun]]; discriminate].
    + split; [lia|]. split; [discriminate | intros [_ [run Hrun]]; discriminate].
    + split; [lia|]. split; [eauto | reflexivity].
  - split; [lia|]. split; [discriminate | intros [Hv _]; discriminate].
Qed.

Lemma engine_called_at_most_once_witness :
  engine_calls (final (main Samples.mixed)) = 1%nat.
Proof.
  apply (proj2 (engine_called_at_most_once Samples.mixed)).
  split; [reflexivity|]. eexists. reflexivity.
Defined.

(** X9.  When the package loads but its [themeCheckRun] is not a function,
    the engine is not called, the report is the "Script Failed" notice
    that names the type found, the counts stay 0 and the exit status is
    1; the report is still published like any other. *)
Theorem not_a_function_degrades (w : World) (typeof : string) :
  output_path_valid w = true ->
  imported w = NotAFunction typeof ->
  let st := final (main w) in
  engine_calls st = 0%nat
  /\ exit_code (main w) = 1%Z
  /\ totalErrorCount (vars st) = 0%nat
  /\ totalWarningCount (vars st) = 0%nat
  /\ summaryLine (vars st) = "Error: Failed to run theme check script."
  /\ reportBody (vars st)
     = warning_sign ++ " **Theme Check Script Failed**" ++ LF ++ "```" ++ LF
         ++ "Failed to access themeCheckRun function correctly from "
         ++ "'@shopify/theme-check-node'. Expected function, got: " ++ typeof
         ++ LF ++ "```"
  /\ (write_succeeds w = true ->
      setOutput_calls st
      = [("comment_body_file", bodyFile w); ("fallback_comment_body", "");
         ("error_count", "0"); ("warning_count", "0")]).
Proof.
  intros Hvalid Himp st.
  assert (Hr : reaches_runCheck w = true)
    by (unfold reaches_runCheck; now rewrite Himp).
  assert (Hout : engine_outcome w = None)
    by (unfold engine_outcome; now rewrite Hvalid, Himp).
  assert (Hoff : engine_offenses w = None)
    by (unfold engine_offenses; now rewrite Hout).
  pose proof (no_call_not_nullish w Hout) as Hn.
  assert (Hst : st = after_publish w (after_check w))
    by (subst st; now rewrite (main_run w Hr Hn)).
  pose proof (after_check_failed w Hoff Hn) as Hcheck. rewrite Hout in Hcheck.
  assert (Herr : setup_error w = not_a_function_error typeof)
    by (unfold setup_error; now rewrite Hvalid, Himp).
  rewrite Herr in Hcheck.
  destruct (counts_after_publish w (after_check w))
    as (Hec & Hwc & Hsum & Hbody & Hcalls).
  rewrite <- Hst in Hec, Hwc, Hsum, Hbody, Hcalls.
  rewrite Hec, Hwc, Hsum, Hbody, Hcalls, Hcheck.
  cbn [vars totalErrorCount totalWarningCount summaryLine reportBody
         engine_calls].
  repeat (split; [reflexivity|]).
  split.
  { rewrite (main_run w Hr Hn). cbn [exit_code].
    now rewrite jobShouldFail_after_publish, Hcheck. }
  repeat (split; [reflexivity|]).
  intros Hw. now rewrite Hst, calls_after_publish, Hw, Hcheck.
Qed.

Lemma not_a_function_degrades_witness :
  engine_calls (final (main MoreSamples.no_export)) = 0%nat
  /\ exit_code (main MoreSamples.no_export) = 1%Z.
Proof.
  destruct (not_a_function_degrades MoreSamples.no_export "undefined"
              eq_refl eq_refl) as (Hcalls & Hexit & _).
  split; [exact Hcalls | exact Hexit].
Defined.

(** ** The report body *)

Lemma truthy_app_l (a b : string) :
  Js.truthy a = true -> Js.truthy (a ++ b) = true.
Proof. now destruct a. Qed.

Lemma formatOffenseBlock_truthy (o : Offense) (ws repo sha : string) :
  Js.truthy (formatOffenseBlock o ws repo sha) = true.
Proof. reflexivity. Qed.

Lemma formatAll_truthy (l : list Offense) (ws repo sha : string) :
  l <> [] -> Js.truthy (formatAll l ws repo sha) = true.
Proof.
  destruct l as [|o [|o' l]]; [congruence | reflexivity |].
  intros _. unfold formatAll. cbn [List.map Js.join].
  apply truthy_app_l, formatOffenseBlock_truthy.
Qed.

Lemma errorOffenses_app (l1 l2 : list Offense) :
  errorOffenses (l1 ++ l2) = (errorOffenses l1 ++ errorOffenses l2)%list.
Proof. apply List.filter_app. Qed.

Lemma warningOffenses_app (l1 l2 : list Offense) :
  warningOffenses (l1 ++ l2)
  = (warningOffenses l1 ++ warningOffenses l2)%list.
Proof. apply List.filter_app. Qed.

Lemma errorOffenses_twice (l : list Offense) :
  errorOffenses (errorOffenses l) = errorOffenses l
  /\ warningOffenses (errorOffenses l) = [].
Proof.
  unfold errorOffenses, warningOffenses.
  induction l as [|o l [IH1 IH2]]; [split; reflexivity|].
  cbn [List.filter].
  destruct (Z.eqb_spec (severity o) 0) as [H|H]; [|now split].
  cbn [List.filter]. rewrite H. cbn. now rewrite IH1, IH2.
Qed.

Lemma warningOffenses_twice (l : list Offense) :
  warningOffenses (warningOffenses l) = warningOffenses l
  /\ errorOffenses (warningOffenses l) = [].
Proof.
  unfold errorOffenses, warningOffenses.
  induction l as [|o l [IH1 IH2]]; [split; reflexivity|].
  cbn [List.filter].
  destruct (Z.eqb_spec (severity o) 1) as [H|H]; [|now split].
  cbn [List.filter]. rewrite H. cbn. now rewrite IH1, IH2.
Qed.

(** The body is a function of the two classes. *)
Lemma reportBodyOf_classes (l l' : list Offense) (ws repo sha : string) :
  errorOffenses l = errorOffenses l' ->
  warningOffenses l = warningOffenses l' ->
  reportBodyOf l ws repo sha = reportBodyOf l' ws repo sha.
Proof. intros He Hw. unfold reportBodyOf. now rewrite He, Hw. Qed.

(** X10.  An offense of a severity other than 0 and 1 leaves no trace:
    put anywhere in the engine's list, it changes neither class and so
    neither the counts nor the report body.  And the order between an
    error and a warning does not matter: the body is that of the errors
    followed by the warnings. *)
Theorem other_severities_leave_no_trace
    (l1 l2 : list Offense) (o : Offense) (ws repo sha : string) :
  severity o <> 0%Z -> severity o <> 1%Z ->
  errorOffenses (l1 ++ o :: l2) = errorOffenses (l1 ++ l2)
  /\ warningOffenses (l1 ++ o :: l2) = warningOffenses (l1 ++ l2)
  /\ reportBodyOf (l1 ++ o :: l2) ws repo sha
     = reportBodyOf (l1 ++ l2) ws repo sha
  /\ reportBodyOf (l1 ++ l2) ws repo sha
     = reportBodyOf
         (errorOffenses (l1 ++ l2) ++ warningOffenses (l1 ++ l2))%list
         ws repo sha.
Proof.
  intros H0 H1.
  apply Z.eqb_neq in H0, H1.
  assert (He : errorOffenses (l1 ++ o :: l2) = errorOffenses (l1 ++ l2)).
  { rewrite !errorOffenses_app. cbn. now rewrite H0. }
  assert (Hw : warningOffenses (l1 ++ o :: l2) = warningOffenses (l1 ++ l2)).
  { rewrite !warningOffenses_app. cbn. now rewrite H1. }
  split; [exact He|]. split; [exact Hw|].
  split; [now apply reportBodyOf_classes|].
  apply reportBodyOf_classes.
  - rewrite (errorOffenses_app (errorOffenses _)).
    destruct (errorOffenses_twice (l1 ++ l2)) as [-> _].
    destruct (warningOffenses_twice (l1 ++ l2)) as [_ ->].
    now rewrite app_nil_r.
  - rewrite (warningOffenses_app (errorOffenses _)).
    destruct (errorOffenses_twice (l1 ++ l2)) as [_ ->].
    now destruct (warningOffenses_twice (l1 ++ l2)) as [-> _].
Qed.

Lemma other_severities_leave_no_trace_witness :
  reportBodyOf [Samples.header_error; Samples.info; Samples.footer_warning]
    "/workspace" "https://github.com/org/repo" "abc123"
  = reportBodyOf [Samples.header_error; Samples.footer_warning]
      "/workspace" "https://github.com/org/repo" "abc123".
Proof.
  refine (proj1 (proj2 (proj2
            (other_severities_leave_no_trace [Samples.header_error]
               [Samples.footer_warning] Samples.info "/workspace"
               "https://github.com/org/repo" "abc123" _ _))));
    discriminate.
Defined.

Lemma reportBodyOf_success (l : list Offense) (ws repo sha : string) :
  errorOffenses l = [] -> warningOffenses l = [] ->
  reportBodyOf l ws repo sha
  = check_mark ++ " (0 error(s), 0 warning(s) found.)".
Proof. intros He Hw. unfold reportBodyOf. now rewrite He, Hw. Qed.

(** X11.  The body has one of four shapes.  With no error and no warning
    it is the success mark around the summary.  Errors alone give the
    Errors header and one block per error, each followed by a line feed;
    warnings alone give the Warnings header and the blocks, with no line
    feed after the last; with both, the errors section, a rule and the
    warnings section. *)
Theorem report_body_shapes (l : list Offense) (ws repo sha : string) :
  let errors := errorOffenses l in
  let warnings := warningOffenses l in
  let errors_section :=
    "### " ++ siren ++ " Errors" ++ LF ++ formatAll errors ws repo sha ++ LF in
  let warnings_section :=
    "### " ++ warning_sign ++ " Warnings" ++ LF
      ++ formatAll warnings ws repo sha in
  (errors = [] -> warnings = [] ->
   reportBodyOf l ws repo sha
   = check_mark ++ " (0 error(s), 0 warning(s) found.)")
  /\ (errors <> [] -> warnings = [] ->
      reportBodyOf l ws repo sha = errors_section)
  /\ (errors = [] -> warnings <> [] ->
      reportBodyOf l ws repo sha = warnings_section)
  /\ (errors <> [] -> warnings <> [] ->
      reportBodyOf l ws repo sha
      = errors_section ++ LF ++ "---" ++ LF ++ warnings_section).
Proof.
  intros errors warnings errors_section warnings_section.
  assert (Hpos : forall l' : list Offense,
             l' <> [] -> (0 <? List.length l')%nat = true
                         /\ (List.length l' =? 0)%nat = false).
  { intros [|o l'] H; [congruence | split; reflexivity]. }
  unfold reportBodyOf. fold errors warnings.
  split; [|split; [|split]].
  - intros -> ->. reflexivity.
  - intros He ->. destruct (Hpos _ He) as [-> ->].
    cbn [andb List.length Nat.ltb Nat.leb].
    rewrite (formatAll_truthy _ ws repo sha He). reflexivity.
  - intros -> Hw. destruct (Hpos _ Hw) as [-> ->].
    cbn [andb List.length Nat.ltb Nat.leb Nat.eqb].
    rewrite (formatAll_truthy _ ws repo sha Hw). reflexivity.
  - intros He Hw. destruct (Hpos _ He) as [-> ->].
    destruct (Hpos _ Hw) as [-> _]. cbn [andb].
    rewrite (formatAll_truthy _ ws repo sha He),
      (formatAll_truthy _ ws repo sha Hw).
    subst errors_section warnings_section. now string_assoc.
Qed.

Lemma report_body_shapes_witness :
  reportBodyOf [Samples.footer_warning] "/workspace" "" ""
  = "### " ++ warning_sign ++ " Warnings" ++ LF
      ++ "- sections/footer.liquid:`3:0`" ++ LF
      ++ "  Unused variable (UnusedAssign)".
Proof.
  pose proof (proj1 (proj2 (proj2
                (report_body_shapes [Samples.footer_warning] "/workspace"
                   "" "")))) as H.
  cbv zeta in H. rewrite H; [reflexivity | reflexivity | discriminate].
Defined.

Lemma no_class_members (l : list Offense) :
  (forall o, In o l -> severity o <> 0%Z /\ severity o <> 1%Z) ->
  errorOffenses l = [] /\ warningOffenses l = [].
Proof.
  induction l as [|o l IH]; intros H; [split; reflexivity|].
  destruct (H o (or_introl eq_refl)) as [H0 H1].
  apply Z.eqb_neq in H0, H1. cbn. rewrite H0, H1.
  apply IH. intros o' Hin. apply H. now right.
Qed.

(** X12.  A run in which the engine finds no error and no warning (no
    offense at all, or offenses of other severities only) and whose report
    file can be written exits with 0 whatever [FAIL_ON_WARNINGS] is; its
    report is the title, the bold summary with both counts 0 and the
    success mark, and both emitted counts are 0. *)
Theorem clean_run (w : World) (l : list Offense) :
  engine_offenses w = Some l ->
  (forall o, In o l -> severity o <> 0%Z /\ severity o <> 1%Z) ->
  write_succeeds w = true ->
  exit_code (main w) = 0%Z
  /\ written (final (main w))
     = [(bodyFile w,
         reportTitle w ++ LF ++ "**0 error(s), 0 warning(s) found.**" ++ LF
           ++ LF ++ check_mark ++ " (0 error(s), 0 warning(s) found.)"
           ++ viewMoreLink w)]
  /\ setOutput_calls (final (main w))
     = [("comment_body_file", bodyFile w); ("fallback_comment_body", "");
        ("error_count", "0"); ("warning_count", "0")].
Proof.
  intros Hoff Hnone Hw.
  destruct (no_class_members l Hnone) as [He Hwarn].
  destruct (run_with_offenses w l Hoff Hw) as [Hexit Hwritten].
  destruct (engine_offenses_reaches w l Hoff) as [Hr _].
  pose proof (offenses_not_nullish w l Hoff) as Hn.
  split; [|split].
  - rewrite Hexit, He, Hwarn. reflexivity.
  - rewrite Hwritten.
    rewrite (reportBodyOf_success l _ _ _ He Hwarn), He, Hwarn.
    cbn [List.length]. reflexivity.
  - rewrite (main_run w Hr Hn). cbn [final].
    rewrite calls_after_publish, Hw, (after_check_offenses w l Hoff).
    cbn [vars totalErrorCount totalWarningCount setOutput_calls app].
    now rewrite He, Hwarn.
Qed.

Lemma clean_run_witness :
  exit_code (main MoreSamples.clean) = 0%Z.
Proof.
  refine (proj1 (clean_run MoreSamples.clean [Samples.info] eq_refl _ eq_refl)).
  intros o [<-|[]]. split; discriminate.
Defined.

(** X13.  Only the literal [true] turns warnings into a failure: with any
    other value of [FAIL_ON_WARNINGS] ([false], [True], [1], the empty
    string) a run without errors whose report file can be written exits
    with 0, however many warnings it found. *)
Theorem flag_is_literal_true (w : World) (l : list Offense) (v : option string) :
  engine_offenses w = Some l ->
  errorOffenses l = [] ->
  write_succeeds w = true ->
  v <> Some "true" ->
  exit_code (main (with_fail_on_warnings v w)) = 0%Z.
Proof.
  intros Hoff He Hw Hv.
  destruct (run_with_offenses (with_fail_on_warnings v w) l) as [-> _];
    [assumption | assumption |].
  rewrite flag_read, He. cbn [List.length Nat.ltb Nat.leb orb].
  assert (Hflag : match v with
                  | Some s => String.eqb s "true"
                  | None => false
                  end = false).
  { destruct v as [s|]; [|reflexivity].
    apply String.eqb_neq. congruence. }
  rewrite Hflag. now rewrite andb_false_r.
Qed.

Lemma flag_is_literal_true_witness :
  exit_code (main (with_fail_on_warnings (Some "True") Samples.warning_only))
  = 0%Z.
Proof.
  apply (flag_is_literal_true Samples.warning_only [Samples.footer_warning]);
    [reflexivity | reflexivity | reflexivity | discriminate].
Defined.

(** ** Offenses without a usable uri *)

Lemma endsWith_sep_split (s : string) :
  Js.endsWith s "/" = true -> exists t, s = t ++ "/".
Proof.
  induction s as [|c rest IH]; [discriminate|].
  destruct rest as [|d rest].
  - rewrite endsWith_sep_single. intros H. apply Ascii.eqb_eq in H.
    subst c. now exists "".
  - rewrite endsWith_sep_cons by congruence. intros H.
    destruct (IH H) as [t Ht]. exists (String c t). cbn [append].
    now rewrite <- Ht.
Qed.

Lemma baseWorkspacePath_ends_with_sep (ws : string) :
  exists t, baseWorkspacePath ws = t ++ "/".
Proof.
  destruct (baseWorkspacePath_cases ws) as [[H ->]|[_ ->]].
  - now apply endsWith_sep_split.
  - now exists ws.
Qed.

(** The only root that a path without separator after its first character
    can start with is [/]. *)
Lemma root_of_flat_path (name base : string) :
  has_char "/" name = false ->
  Js.startsWith ("/" ++ name) base = true ->
  (exists t, base = t ++ "/") ->
  base = "/".
Proof.
  intros Hflat Hstart [t ->].
  apply startsWith_split in Hstart as [u Hu].
  destruct t as [|c t]; [reflexivity|].
  cbn [append] in Hu. injection Hu as _ Hname.
  rewrite Hname, !has_char_app in Hflat. cbn in Hflat.
  now rewrite orb_true_r in Hflat.
Qed.

(** X14.  An offense without uri (or with an empty one) never gets a
    link, whatever the repository, the commit and the line are: it is
    shown as [/unknown_path], or as [unknown_path] when the workspace root
    is [/], where the sentinel check is what stops the link. *)
Theorem missing_uri_never_links (o : Offense) (ws repo sha : string) :
  uri o = None \/ uri o = Some "" ->
  let r := resolve (offenseUri o) (startRow o) ws repo sha in
  fileLink r = ""
  /\ ((baseWorkspacePath ws = "/" /\ relativePath r = "unknown_path")
      \/ (baseWorkspacePath ws <> "/" /\ relativePath r = "/unknown_path"))
  /\ formatOffenseBlock o ws repo sha
     = "- " ++ relativePath r ++ locationSuffix o ++ LF ++ "  "
         ++ description o.
Proof.
  intros Huri r.
  assert (Hu : offenseUri o = "file:///unknown_path")
    by (unfold offenseUri; destruct Huri as [->| ->]; reflexivity).
  assert (H1 : Js.startsWith (offenseUri o) "file://" = true)
    by now rewrite Hu.
  assert (H2 : Js.decodeURIComponent (Js.substring_from 7 (offenseUri o))
               = Some "/unknown_path") by now rewrite Hu.
  assert (Hr : fileLink r = ""
               /\ ((baseWorkspacePath ws = "/"
                    /\ relativePath r = "unknown_path")
                   \/ (baseWorkspacePath ws <> "/"
                       /\ relativePath r = "/unknown_path"))).
  { subst r.
    destruct (Js.startsWith "/unknown_path" (baseWorkspacePath ws)) eqn:H3.
    - assert (Hbase : baseWorkspacePath ws = "/").
      { apply (root_of_flat_path "unknown_path"); [reflexivity | exact H3|].
        apply baseWorkspacePath_ends_with_sep. }
      rewrite (resolve_inside _ _ _ _ _ _ H1 H2 H3), Hbase.
      cbn [String.length Js.substring_from relativePath fileLink String.eqb
             Ascii.eqb Bool.eqb negb andb].
      rewrite !andb_false_r. cbn [andb]. split; [reflexivity|]. left. auto.
    - rewrite (resolve_outside _ _ _ _ _ _ H1 H2 H3).
      split; [reflexivity|]. right. split; [|reflexivity].
      intros Hbase. rewrite Hbase in H3. discriminate H3. }
  destruct Hr as [Hlink Hrel]. split; [exact Hlink|]. split; [exact Hrel|].
  now apply formatOffenseBlock_plain.
Qed.

Lemma missing_uri_never_links_witness :
  formatOffenseBlock MoreSamples.no_uri "/workspace"
    "https://github.com/org/repo" "abc123"
  = "- /unknown_path:`5:1`" ++ LF
      ++ "  Parse failure (ParserBlockingScript)".
Proof.
  destruct (missing_uri_never_links MoreSamples.no_uri "/workspace"
              "https://github.com/org/repo" "abc123" (or_introl eq_refl))
    as (_ & _ & ->).
  reflexivity.
Defined.

(** X15.  A uri that is not a [file://] uri, or whose path cannot be
    percent-decoded, is shown as it came and gets no link; the decoding
    error stays inside [formatOffenseBlock], which still returns the block
    with location and description. *)
Theorem raw_uri_shown
    (o : Offense) (ws repo sha : string) :
  Js.startsWith (offenseUri o) "file://" = false
  \/ Js.decodeURIComponent (Js.substring_from 7 (offenseUri o)) = None ->
  relativePath (resolve (offenseUri o) (startRow o) ws repo sha) = offenseUri o
  /\ fileLink (resolve (offenseUri o) (startRow o) ws repo sha) = ""
  /\ formatOffenseBlock o ws repo sha
     = "- " ++ offenseUri o ++ locationSuffix o ++ LF ++ "  "
         ++ description o.
Proof.
  intros H.
  assert (Hres : resolve (offenseUri o) (startRow o) ws repo sha
                 = mkResolved (offenseUri o) "").
  { destruct H as [H|H]; [now apply resolve_not_file|].
    destruct (Js.startsWith (offenseUri o) "file://") eqn:Hfile.
    - now apply resolve_undecodable.
    - now apply resolve_not_file. }
  rewrite formatOffenseBlock_plain by now rewrite Hres.
  rewrite Hres. auto.
Qed.

Lemma raw_uri_shown_witness :
  formatOffenseBlock MoreSamples.bad_escape "/workspace"
    "https://github.com/org/repo" "abc123"
  = "- file:///workspace/sections/50%.liquid:`9:3`" ++ LF
      ++ "  No message (No check code)"
  /\ formatOffenseBlock MoreSamples.web_uri "/workspace"
       "https://github.com/org/repo" "abc123"
     = "- https://cdn.example.com/app.js:`2:7`" ++ LF
         ++ "  Remote asset (RemoteAsset)".
Proof.
  split.
  - destruct (raw_uri_shown MoreSamples.bad_escape "/workspace"
                "https://github.com/org/repo" "abc123" (or_intror eq_refl))
      as (_ & _ & ->).
    reflexivity.
  - destruct (raw_uri_shown MoreSamples.web_uri "/workspace"
                "https://github.com/org/repo" "abc123" (or_introl eq_refl))
      as (_ & _ & ->).
    reflexivity.
Defined.

(** ** What a run depends on *)

(** Two worlds that agree on what the script reads from them give the
    same run. *)
Lemma main_ext_readers (w1 w2 : World) :
  cwd w1 = cwd w2 ->
  script_dir w1 = script_dir w2 ->
  imported w1 = imported w2 ->
  now w1 = now w2 ->
  existsSync w1 = existsSync w2 ->
  write_permitted w1 = write_permitted w2 ->
  append_permitted w1 = append_permitted w2 ->
  prNumber w1 = prNumber w2 ->
  workspacePath w1 = workspacePath w2 ->
  outputFilePath w1 = outputFilePath w2 ->
  repoUrl w1 = repoUrl w2 ->
  commitSha w1 = commitSha w2 ->
  runId w1 = runId w2 ->
  failOnWarnings w1 = failOnWarnings w2 ->
  Js.or_else (env w1 "RUNNER_TEMP") (script_dir w1)
  = Js.or_else (env w2 "RUNNER_TEMP") (script_dir w2) ->
  main w1 = main w2.
Proof.
  destruct w1 as [e1 c1 d1 i1 n1 x1 p1 a1], w2 as [e2 c2 d2 i2 n2 x2 p2 a2].
  unfold prNumber, workspacePath, outputFilePath, repoUrl, commitSha, runId,
    failOnWarnings, themePath.
  cbn [cwd script_dir imported now existsSync write_permitted append_permitted
         env].
  intros -> -> -> -> -> -> -> H1 H2 H3 H4 H5 H6 H7 H8.
  unfold main, runCheck, publish, check_and_classify, writeCommentBodyToFile,
    setOutput, appendFileSync, writeFileSync, call_engine, finalCommentBody,
    fallbackBody, reportTitle, viewMoreLink, actionRunUrl, bodyFile,
    output_path_valid, outputFilePath_toString, themePath, prNumber,
    workspacePath, outputFilePath, repoUrl, commitSha, runId, failOnWarnings,
    themePath.
  cbn [cwd script_dir imported now existsSync write_permitted append_permitted
         env].
  rewrite H1, H2, H3, H4, H5, H6, H7, H8.
  reflexivity.
Qed.

Lemma main_ext (w1 w2 : World) :
  cwd w1 = cwd w2 ->
  script_dir w1 = script_dir w2 ->
  imported w1 = imported w2 ->
  now w1 = now w2 ->
  existsSync w1 = existsSync w2 ->
  write_permitted w1 = write_permitted w2 ->
  append_permitted w1 = append_permitted w2 ->
  (forall k, In k variables_read -> env w1 k = env w2 k) ->
  main w1 = main w2.
Proof.
  intros Hc Hd Hi Hn Hx Hp Ha Henv.
  assert (Hk : forall k, In k variables_read -> env w1 k = env w2 k)
    by exact Henv.
  unfold variables_read in Hk. cbn [In] in Hk.
  apply main_ext_readers; try assumption;
    unfold prNumber, workspacePath, outputFilePath, repoUrl, commitSha, runId,
      failOnWarnings, themePath;
    rewrite ?Hc, ?Hd;
    match goal with
    | |- context [env w1 ?k] => rewrite (Hk k) by tauto
    end; reflexivity.
Qed.

(** X16.  The script reads eight environment variables and no other:
    setting, changing or unsetting any other variable changes nothing of
    the run, neither the exit status nor the report nor the outputs. *)
Theorem other_variables_ignored (w : World) (k : string) (v : option string) :
  ~ In k variables_read ->
  main (with_env k v w) = main w.
Proof.
  intros Hk. apply main_ext; try reflexivity.
  intros k' Hin. cbn [with_env env].
  destruct (String.eqb_spec k' k) as [->|]; [contradiction | reflexivity].
Qed.

Lemma other_variables_ignored_witness :
  main (with_env "GITHUB_TOKEN" (Some "secret") Samples.mixed)
  = main Samples.mixed.
Proof.
  apply other_variables_ignored.
  unfold variables_read. cbn [In].
  intros [H|[H|[H|[H|[H|[H|[H|[H|[]]]]]]]]]; discriminate H.
Defined.

(** X17.  For the variables read with [||] ([PR_NUMBER],
    [WORKSPACE_PATH], [REPO_URL], [COMMIT_SHA], [RUN_ID], [RUNNER_TEMP])
    and for the flag, an empty value is the same as no value: the run with
    the variable set to the empty string is the run with the variable
    unset. *)
Theorem empty_value_is_unset (w : World) (k : string) :
  In k variables_defaulted ->
  main (with_env k (Some "") w) = main (with_env k None w).
Proof.
  unfold variables_defaulted. cbn [In].
  intros [<-|[<-|[<-|[<-|[<-|[<-|[<-|[]]]]]]]];
    apply main_ext_readers; reflexivity.
Qed.

Lemma empty_value_is_unset_witness :
  main (with_env "PR_NUMBER" (Some "") Samples.mixed)
  = main (with_env "PR_NUMBER" None Samples.mixed).
Proof.
  apply empty_value_is_unset. unfold variables_defaulted. cbn [In]. tauto.
Defined.

(** ** The report file *)

(** X18.  [writeCommentBodyToFile] is all or nothing: either the file is
    written and then both outputs are set, the path first, or it raises
    before any effect, leaving the state as it was, so that the handler
    of [runCheck] starts from a clean slate. *)
Theorem writeCommentBodyToFile_all_or_nothing
    (w : World) (body : string) (st : State) :
  (write_succeeds w = true
   /\ exists st',
        writeCommentBodyToFile w body st = (Returned tt, st')
        /\ written st' = (bodyFile w, body) :: written st
        /\ setOutput_calls st'
           = (setOutput_calls st
                ++ [("comment_body_file", bodyFile w);
                    ("fallback_comment_body", "")])%list
        /\ vars st' = vars st
        /\ engine_calls st' = engine_calls st)
  \/ (write_succeeds w = false
      /\ exists e, writeCommentBodyToFile w body st = (Raised e, st)).
Proof.
  destruct (write_succeeds w) eqn:Hw; [left | right]; split; try reflexivity.
  - unfold writeCommentBodyToFile, bind, writeFileSync.
    unfold write_succeeds in Hw. rewrite Hw, !setOutput_run.
    eexists. split; [reflexivity|]. cbn.
    rewrite <- app_assoc. auto.
  - now apply writeCommentBodyToFile_fails.
Qed.

Lemma writeCommentBodyToFile_all_or_nothing_witness :
  exists e,
    writeCommentBodyToFile Samples.read_only_temp "report" initial_state
    = (Raised e, initial_state).
Proof.
  destruct (writeCommentBodyToFile_all_or_nothing Samples.read_only_temp
              "report" initial_state) as [[Hw _]|[_ H]].
  - discriminate Hw.
  - exact H.
Defined.




(** *** Its name *)

Lemma segments_aux_flat (cur name : string) :
  has_char "/" name = false ->
  NodePath.segments_aux cur name = [cur ++ name].
Proof.
  revert cur. induction name as [|c name IH]; intros cur Hflat.
  - cbn. now rewrite append_empty_r.
  - cbn [has_char] in Hflat. apply orb_false_elim in Hflat as [Hc Hflat].
    cbn [NodePath.segments_aux]. unfold NodePath.sep. rewrite Hc.
    rewrite (IH _ Hflat). now rewrite append_assoc.
Qed.

Lemma segments_aux_file (cur dir name : string) :
  has_char "/" name = false ->
  NodePath.segments_aux cur (dir ++ "/" ++ name)
  = (NodePath.segments_aux cur dir ++ [name])%list.
Proof.
  intros Hflat. revert cur. induction dir as [|c dir IH]; intros cur.
  - cbn. now rewrite (segments_aux_flat "" name Hflat).
  - cbn [append NodePath.segments_aux].
    destruct (Ascii.eqb c NodePath.sep); cbn [app]; now rewrite IH.
Qed.

Lemma normalize_segments_file
    (allow : bool) (acc segs : list string) (name : string) :
  name <> "" -> name <> "." -> name <> ".." ->
  NodePath.normalize_segments allow acc (segs ++ [name])
  = (NodePath.normalize_segments allow acc segs ++ [name])%list.
Proof.
  intros H0 H1 H2.
  apply String.eqb_neq in H0, H1, H2.
  revert acc. induction segs as [|seg segs IH]; intros acc.
  - cbn. now rewrite H0, H1, H2.
  - cbn [app NodePath.normalize_segments].
    destruct (String.eqb seg "" || String.eqb seg "."); [apply IH|].
    destruct (String.eqb seg ".."); [|apply IH].
    destruct acc as [|top acc]; [apply IH|].
    destruct (String.eqb top ".."); apply IH.
Qed.

Lemma join_file (kept : list string) (name : string) :
  Js.join "/" (kept ++ [name])
  = match kept with
    | [] => name
    | _ :: _ => Js.join "/" kept ++ "/" ++ name
    end.
Proof.
  induction kept as [|x [|y kept] IH]; [reflexivity | reflexivity |].
  change (Js.join "/" ((x :: y :: kept) ++ [name]))
    with (x ++ "/" ++ Js.join "/" ((y :: kept) ++ [name])).
  rewrite IH.
  change (Js.join "/" (x :: y :: kept))
    with (x ++ "/" ++ Js.join "/" (y :: kept)).
  now string_assoc.
Qed.

Lemma endsWith_sep_flat (name : string) :
  has_char "/" name = false -> Js.endsWith name "/" = false.
Proof.
  intros Hflat. destruct (Js.endsWith name "/") eqn:H; [|reflexivity].
  apply endsWith_sep_split in H as [t ->].
  rewrite has_char_app in Hflat. cbn in Hflat.
  now rewrite orb_true_r in Hflat.
Qed.

Lemma endsWith_sep_app (dir name : string) :
  name <> "" -> Js.endsWith (dir ++ name) "/" = Js.endsWith name "/".
Proof.
  intros Hne. induction dir as [|c dir IH]; [reflexivity|].
  cbn [append]. rewrite endsWith_sep_cons; [exact IH|].
  destruct dir; [exact Hne | discriminate].
Qed.

(** [path.join] of a directory and a plain file name. *)
Lemma join_plain_name (dir name : string) :
  name <> "" -> name <> "." -> name <> ".." ->
  has_char "/" name = false ->
  NodePath.join dir name = dir_prefix dir ++ name.
Proof.
  intros H0 H1 H2 Hflat.
  assert (Htruthy : Js.truthy name = true) by now apply truthy_true.
  unfold NodePath.join. rewrite Htruthy.
  destruct dir as [|c dir]; cbn [Js.truthy dir_prefix].
  - destruct name as [|d name]; [congruence|].
    unfold NodePath.normalize.
    rewrite (endsWith_sep_flat _ Hflat).
    assert (Hd : Ascii.eqb d NodePath.sep = false).
    { cbn [has_char] in Hflat. now apply orb_false_elim in Hflat as [Hd _]. }
    rewrite Hd. unfold NodePath.normalizeString, NodePath.segments.
    rewrite (segments_aux_flat "" _ Hflat).
    rewrite (normalize_segments_file _ [] [] _ H0 H1 H2).
    reflexivity.
  - change (String c dir ++ "/" ++ name) with (String c (dir ++ "/" ++ name)).
    remember (dir ++ "/" ++ name) as tail eqn:Htail.
    assert (Hp : String c tail = String c dir ++ "/" ++ name)
      by (rewrite Htail; reflexivity).
    assert (Hend : Js.endsWith (String c tail) "/" = false).
    { rewrite Hp, endsWith_sep_app by (destruct name; discriminate).
      rewrite (endsWith_sep_app "/" name H0).
      now apply endsWith_sep_flat. }
    assert (Hseg : NodePath.segments_aux "" (String c tail)
                   = (NodePath.segments_aux "" (String c dir) ++ [name])%list)
      by (rewrite Hp; now apply segments_aux_file).
    unfold NodePath.normalize, dir_prefix. cbv beta iota zeta.
    rewrite Hend.
    unfold NodePath.normalizeString, NodePath.segments.
    rewrite Hseg, (normalize_segments_file _ [] _ _ H0 H1 H2), join_file.
    destruct name as [|d name]; [congruence|].
    destruct (NodePath.normalize_segments _ [] _) as [|x kept].
    + now destruct (Ascii.eqb c NodePath.sep).
    + destruct (Js.join "/" (x :: kept) ++ "/" ++ String d name) eqn:Hq.
      * destruct (Js.join "/" (x :: kept)); discriminate Hq.
      * rewrite <- Hq.
        destruct (Ascii.eqb c NodePath.sep); now string_assoc.
Qed.

Lemma digits_flat (u : Decimal.uint) :
  has_char "/" (NilEmpty.string_of_uint u) = false.
Proof. induction u; cbn; auto. Qed.

Lemma number_toString_flat (z : Z) :
  has_char "/" (Js.number_toString z) = false.
Proof.
  unfold Js.number_toString, NilZero.string_of_int, NilZero.string_of_uint.
  destruct (Z.to_int z) as [u|u]; destruct u; cbn; auto using digits_flat.
Qed.

Lemma to_int_not_nil (z : Z) :
  Z.to_int z <> Decimal.Pos Decimal.Nil
  /\ Z.to_int z <> Decimal.Neg Decimal.Nil.
Proof.
  pose proof (DecimalZ.to_of (Z.to_int z)) as H.
  rewrite DecimalZ.of_to in H.
  split; intros Hnil; rewrite Hnil in H; discriminate H.
Qed.

Lemma number_toString_inj (a b : Z) :
  Js.number_toString a = Js.number_toString b -> a = b.
Proof.
  unfold Js.number_toString. intros H.
  apply DecimalZ.to_int_inj.
  destruct (to_int_not_nil a) as [Ha1 Ha2].
  destruct (to_int_not_nil b) as [Hb1 Hb2].
  pose proof (NilZero.isi _ Ha1 Ha2) as Ia.
  pose proof (NilZero.isi _ Hb1 Hb2) as Ib.
  rewrite H in Ia. congruence.
Qed.

Lemma append_inj_l (p a b : string) : p ++ a = p ++ b -> a = b.
Proof.
  induction p as [|c p IH]; [auto|].
  cbn [append]. intros H. injection H as H. auto.
Qed.

Lemma length_append (a b : string) :
  String.length (a ++ b) = (String.length a + String.length b)%nat.
Proof. induction a as [|c a IH]; cbn; [reflexivity | now rewrite IH]. Qed.

Lemma append_inj_r (a b t : string) : a ++ t = b ++ t -> a = b.
Proof.
  revert b. induction a as [|c a IH]; intros [|d b] H.
  - reflexivity.
  - apply (f_equal String.length) in H. cbn in H.
    rewrite length_append in H. lia.
  - apply (f_equal String.length) in H. cbn in H.
    rewrite length_append in H. lia.
  - cbn [append] in H. injection H as -> H. f_equal. now apply IH.
Qed.

Lemma file_name_plain (z : Z) :
  let name := "comment-body-" ++ Js.number_toString z ++ ".md" in
  name <> "" /\ name <> "." /\ name <> ".." /\ has_char "/" name = false.
Proof.
  cbn zeta. repeat split; try discriminate.
  rewrite !has_char_app, number_toString_flat. reflexivity.
Qed.

(** X20.  The report file is the file [comment-body-<ms>.md], with the
    clock's milliseconds, directly inside the temporary directory
    ([RUNNER_TEMP], or the script's own directory when that is unset or
    empty) once [path.join] has normalised it.  Runs that share the
    directory and start at different milliseconds write different files. *)
Theorem report_file_name :
  (forall w : World,
      bodyFile w
      = dir_prefix (tempDir w) ++ "comment-body-"
          ++ Js.number_toString (now w) ++ ".md")
  /\ (forall w1 w2 : World,
         tempDir w1 = tempDir w2 ->
         now w1 <> now w2 ->
         bodyFile w1 <> bodyFile w2).
Proof.
  assert (Hname : forall w : World,
             bodyFile w
             = dir_prefix (tempDir w) ++ "comment-body-"
                 ++ Js.number_toString (now w) ++ ".md").
  { intros w. unfold bodyFile. fold (tempDir w).
    destruct (file_name_plain (now w)) as (H0 & H1 & H2 & Hflat).
    now apply join_plain_name. }
  split; [exact Hname|].
  intros w1 w2 Hdir Hnow Heq. apply Hnow.
  rewrite !Hname, Hdir in Heq.
  apply append_inj_l in Heq.
  apply (append_inj_l "comment-body-") in Heq.
  apply append_inj_r in Heq.
  now apply number_toString_inj.
Qed.

Lemma report_file_name_witness :
  bodyFile Samples.mixed = "/runner/temp/comment-body-1700000000000.md"
  /\ bodyFile Samples.mixed
     <> bodyFile (mkWorld Samples.full_env "/workspace" "/action/scripts"
                    RequireThrows 1700000000001 (fun _ => true)
                    (fun _ => true) (fun _ => true)).
Proof.
  split.
  - rewrite (proj1 report_file_name Samples.mixed). reflexivity.
  - apply (proj2 report_file_name); [reflexivity | discriminate].
Defined.

(** ** The module import *)


